(** * mathsy-coding: the unit-tested leaf functions [add] and [square]

    A shallow embedding of [add.py] (blog post 2020-12-13) and of the
    [square] function exercised by [test_square.py] (blog post 2020-12-06),
    over a small model of the Python values, classes and operators that the
    two functions touch.

    - Python [int] is unbounded: [Z].
    - Python [float] is IEEE-754 binary64: [spec_float] with precision 53
      and maximal exponent 1024, operated on by the Standard Library's
      executable specification ([SFadd], [SFmul], ...).
    - [raise] is an explicit outcome; module state and the sequence of
      primitive operations evaluated are threaded through a state monad. *)

From Stdlib Require Import ZArith QArith Qabs List String Lia.
From Stdlib Require Import Floats.SpecFloat.
Import ListNotations.

Local Open Scope Z_scope.
Set Warnings "-register-all".

(** ** Python values, classes and exceptions *)
Module Py.

Inductive value : Type :=
| VNone
| VBool (b : bool)
| VInt (z : Z)
| VFloat (f : spec_float)
| VStr (s : string)
| VList (items : list value)
| VDict (entries : list (value * value)).

Inductive pytype : Type :=
| TNoneType | TBool | TInt | TFloat | TStr | TList | TDict.

Definition pytype_eqb (s t : pytype) : bool :=
  match s, t with
  | TNoneType, TNoneType | TBool, TBool | TInt, TInt | TFloat, TFloat
  | TStr, TStr | TList, TList | TDict, TDict => true
  | _, _ => false
  end.

Definition type_of (v : value) : pytype :=
  match v with
  | VNone => TNoneType
  | VBool _ => TBool
  | VInt _ => TInt
  | VFloat _ => TFloat
  | VStr _ => TStr
  | VList _ => TList
  | VDict _ => TDict
  end.

(** The method resolution order below [object]: [bool] is a subclass of
    [int]; the other classes stand alone. *)
Definition mro (t : pytype) : list pytype :=
  match t with
  | TBool => [TBool; TInt]
  | _ => [t]
  end.

Definition issubclass (t c : pytype) : bool := existsb (pytype_eqb c) (mro t).

(** [isinstance(v, (c1, ..., cn))] with a tuple of classes. *)
Definition isinstance (v : value) (classinfo : list pytype) : bool :=
  existsb (issubclass (type_of v)) classinfo.

Inductive exn : Type :=
| TypeError (msg : string)
| OverflowError (msg : string).

Inductive outcome (A : Type) : Type :=
| Return (a : A)
| Raise (e : exn).
Arguments Return {A} a.
Arguments Raise {A} e.

Definition is_TypeError {A} (o : outcome A) : bool :=
  match o with
  | Raise (TypeError _) => true
  | _ => false
  end.

Definition returns {A} (o : outcome A) : bool :=
  match o with
  | Return _ => true
  | Raise _ => false
  end.

(** ** binary64 arithmetic *)

Definition prec : Z := 53.
Definition emax : Z := 1024.

Definition float_add : spec_float -> spec_float -> spec_float := SFadd prec emax.
Definition float_sub : spec_float -> spec_float -> spec_float := SFsub prec emax.
Definition float_mul : spec_float -> spec_float -> spec_float := SFmul prec emax.
Definition float_div : spec_float -> spec_float -> spec_float := SFdiv prec emax.

Definition is_nan (f : spec_float) : bool :=
  match f with
  | S754_nan => true
  | _ => false
  end.

(** Conversion of an [int] operand to a C double, as the float operators do
    it: round to nearest, ties to even, and [OverflowError] when the rounded
    value is out of range. *)
Definition overflow : exn := OverflowError "int too large to convert to float".

Definition int_as_double (z : Z) : outcome spec_float :=
  match binary_normalize prec emax z 0 false with
  | S754_infinity _ => Raise overflow
  | f => Return f
  end.

(** The exact rational value of a finite float. *)
Definition float_value (f : spec_float) : option Q :=
  match f with
  | S754_zero _ => Some (0 # 1)
  | S754_finite s m e => Some (Qmult (inject_Z (cond_Zopp s (Zpos m))) (Qpower (2 # 1) e))
  | S754_infinity _ | S754_nan => None
  end.

(** ** The numeric tower under [+], [*] and [==] *)

Definition as_int (v : value) : option Z :=
  match v with
  | VInt z => Some z
  | VBool b => Some (Z.b2z b)
  | _ => None
  end.

Definition bind_outcome {A B} (o : outcome A) (k : A -> outcome B) : outcome B :=
  match o with
  | Return a => k a
  | Raise e => Raise e
  end.

Definition unsupported_operand (op : string) : exn :=
  TypeError (String.append "unsupported operand type(s) for " op).

(** [a + b]: [int.__add__] for two integers (booleans included, the result
    is an [int]); [float.__add__] / [float.__radd__] as soon as one operand
    is a float, the integer operand being converted first; concatenation
    for two strings or two lists; [TypeError] for every other pairing. *)
Definition binary_add (a b : value) : outcome value :=
  match a, b with
  | VFloat x, VFloat y => Return (VFloat (float_add x y))
  | VFloat x, _ =>
      match as_int b with
      | Some n => bind_outcome (int_as_double n) (fun y => Return (VFloat (float_add x y)))
      | None => Raise (unsupported_operand "+")
      end
  | _, VFloat y =>
      match as_int a with
      | Some n => bind_outcome (int_as_double n) (fun x => Return (VFloat (float_add x y)))
      | None => Raise (unsupported_operand "+")
      end
  | VStr s, VStr t => Return (VStr (String.append s t))
  | VList l, VList m => Return (VList (List.app l m))
  | _, _ =>
      match as_int a, as_int b with
      | Some x, Some y => Return (VInt (x + y))
      | _, _ => Raise (unsupported_operand "+")
      end
  end.

Fixpoint repeat_string (n : nat) (s : string) : string :=
  match n with
  | O => EmptyString
  | S k => String.append s (repeat_string k s)
  end.

Definition non_int_multiplier : exn :=
  TypeError "can't multiply sequence by non-int".

(** [a * b]: integer product for two integers (booleans included); float
    product as soon as one operand is a float together with a number;
    repetition for a string or a list and an integer (a negative count
    gives the empty sequence); [TypeError] for every other pairing. *)
Definition binary_mul (a b : value) : outcome value :=
  match a, b with
  | VFloat x, VFloat y => Return (VFloat (float_mul x y))
  | VFloat x, _ =>
      match as_int b with
      | Some n => bind_outcome (int_as_double n) (fun y => Return (VFloat (float_mul x y)))
      | None => Raise (unsupported_operand "*")
      end
  | _, VFloat y =>
      match as_int a with
      | Some n => bind_outcome (int_as_double n) (fun x => Return (VFloat (float_mul x y)))
      | None => Raise (unsupported_operand "*")
      end
  | VStr s, _ =>
      match as_int b with
      | Some n => Return (VStr (repeat_string (Z.to_nat n) s))
      | None => Raise non_int_multiplier
      end
  | _, VStr s =>
      match as_int a with
      | Some n => Return (VStr (repeat_string (Z.to_nat n) s))
      | None => Raise non_int_multiplier
      end
  | VList l, _ =>
      match as_int b with
      | Some n => Return (VList (List.concat (List.repeat l (Z.to_nat n))))
      | None => Raise non_int_multiplier
      end
  | _, VList l =>
      match as_int a with
      | Some n => Return (VList (List.concat (List.repeat l (Z.to_nat n))))
      | None => Raise non_int_multiplier
      end
  | _, _ =>
      match as_int a, as_int b with
      | Some x, Some y => Return (VInt (x * y))
      | _, _ => Raise (unsupported_operand "*")
      end
  end.

(** [int == float] compares exactly, without converting the integer. *)
Definition int_eq_float (n : Z) (f : spec_float) : bool :=
  match f with
  | S754_zero _ => n =? 0
  | S754_finite s m (Zneg k) => n * Z.pow_pos 2 k =? cond_Zopp s (Zpos m)
  | S754_finite s m e => n =? cond_Zopp s (Zpos m) * 2 ^ e
  | S754_infinity _ | S754_nan => false
  end.

(** [a == b] on the numeric tower; [None] for operands outside it, which
    the functions verified here never return. *)
Definition num_eq (a b : value) : option bool :=
  match a, b with
  | VFloat x, VFloat y => Some (SFeqb x y)
  | VFloat x, _ => option_map (fun n => int_eq_float n x) (as_int b)
  | _, VFloat y => option_map (fun n => int_eq_float n y) (as_int a)
  | _, _ =>
      match as_int a, as_int b with
      | Some x, Some y => Some (x =? y)
      | _, _ => None
      end
  end.

(** ** Module state, evaluation trace and the interpreter monad *)

Inductive event : Type :=
| EvIsinstance (v : value) (classinfo : list pytype)
| EvBinaryAdd (a b : value)
| EvBinaryMul (a b : value).

Definition is_arith (ev : event) : bool :=
  match ev with
  | EvIsinstance _ _ => false
  | EvBinaryAdd _ _ | EvBinaryMul _ _ => true
  end.

(** [globals] is the mutable state a call could observe or change (module
    level bindings); [trace] lists the primitive operations evaluated so
    far, most recent first. *)
Record world : Type := mkWorld {
  globals : list (string * value);
  trace : list event
}.

Definition M (A : Type) : Type := world -> outcome A * world.

Definition ret {A} (a : A) : M A := fun w => (Return a, w).

Definition bind {A B} (m : M A) (k : A -> M B) : M B :=
  fun w =>
    match m w with
    | (Return a, w') => k a w'
    | (Raise e, w') => (Raise e, w')
    end.

Definition raise {A} (e : exn) : M A := fun w => (Raise e, w).

Definition lift {A} (o : outcome A) : M A := fun w => (o, w).

Definition tick (ev : event) : M unit :=
  fun w => (Return tt, mkWorld (globals w) (ev :: trace w)).

Module Notations.
  Notation "x <- m ;; k" := (bind m (fun x => k))
    (at level 61, m at next level, right associativity).
  Notation "m ;;; k" := (bind m (fun _ => k))
    (at level 61, right associativity).
End Notations.
Import Notations.

Definition builtin_isinstance (v : value) (classinfo : list pytype) : M bool :=
  tick (EvIsinstance v classinfo) ;;; ret (isinstance v classinfo).

Definition op_add (a b : value) : M value :=
  tick (EvBinaryAdd a b) ;;; lift (binary_add a b).

Definition op_mul (a b : value) : M value :=
  tick (EvBinaryMul a b) ;;; lift (binary_mul a b).

(** [not e] *)
Definition op_not (m : M bool) : M bool := b <- m ;; ret (negb b).

(** [e1 or e2]: the right operand is evaluated only when the left one is
    false. *)
Definition op_or (m1 m2 : M bool) : M bool :=
  b <- m1 ;; if b then ret true else m2.

End Py.

Import Py Py.Notations.

(** ** add.py *)
Module AddPy.

Definition numbers : list pytype := [TInt; TFloat].

Definition add_message : string :=
  "The inputs to the `add` function must be numbers (int or float)!".

(** [def add(a, b)] *)
Definition add (a b : value) : M value :=
  reject <- op_or (op_not (builtin_isinstance a numbers))
                  (op_not (builtin_isinstance b numbers)) ;;
  if reject then raise (TypeError add_message)
  else op_add a b.

End AddPy.

(** ** square.py *)
Module SquarePy.

(** The spec fixes the kind of the error [square] raises, not its text. *)
Definition square_message : string := "The input to `square` must be a number".

(** Modelled from the spec: [square.py] itself is not among the sources
    (only its test suites import it).  Section 4.2: accepts one value [x];
    if [x] is of a numeric kind (integer or floating-point, including
    negative numbers) returns [x] multiplied by itself; if [x] is not
    numeric, fails with a TypeKind error; no side effects.  Section 9: the
    numeric-kind test is the same run-time [isinstance] check as in [add]. *)
Definition square (x : value) : M value :=
  ok <- builtin_isinstance x AddPy.numbers ;;
  if ok then op_mul x x
  else raise (TypeError square_message).

End SquarePy.

Import AddPy SquarePy.

(** ** Float literals of the test suites

    Each constant is the binary64 value closest to the decimal literal, as
    Python's parser produces it. *)
Module Lit.

Definition float_of_int (z : Z) : spec_float := binary_normalize prec emax z 0 false.

Definition f0_0 : spec_float := S754_zero false.
Definition f1_0 : spec_float := S754_finite false 4503599627370496 (-52).
Definition f0_1 : spec_float := S754_finite false 7205759403792794 (-56).
Definition f0_2 : spec_float := S754_finite false 7205759403792794 (-55).
Definition f0_3 : spec_float := S754_finite false 5404319552844595 (-54).
Definition f1_5 : spec_float := S754_finite false 6755399441055744 (-52).
Definition f2_25 : spec_float := S754_finite false 5066549580791808 (-51).

End Lit.

(** ** unittest's tolerance *)
Module Unittest.

(** [assertAlmostEqual(first, second)] on two floats at the default of 7
    places: it passes when [first == second], and otherwise when
    [round(abs(first - second), 7) == 0], which for a double is a
    difference of at most 5e-8. *)
Definition almost_equal (first second : spec_float) : bool :=
  SFeqb first second ||
  match float_value (SFabs (float_sub first second)) with
  | Some d => Qle_bool d (5 # 100000000)
  | None => false
  end.

End Unittest.

(** ** What the claims speak about *)
Module Spec.

(** The arithmetic sum of two numbers: the integer sum of two integers
    (a boolean counts as 0 or 1), the binary64 sum of two floats, and for
    an integer with a float the binary64 sum once the integer has been
    converted. *)
Inductive sum_of : value -> value -> value -> Prop :=
| sum_int a b x y :
    as_int a = Some x -> as_int b = Some y -> sum_of a b (VInt (x + y))
| sum_float x y :
    sum_of (VFloat x) (VFloat y) (VFloat (float_add x y))
| sum_int_float a n x y :
    as_int a = Some n -> int_as_double n = Return x ->
    sum_of a (VFloat y) (VFloat (float_add x y))
| sum_float_int b n x y :
    as_int b = Some n -> int_as_double n = Return y ->
    sum_of (VFloat x) b (VFloat (float_add x y)).

(** An integer operand that meets a float must fit in a double. *)
Definition fits_double (v : value) : bool :=
  match as_int v with
  | Some n => returns (int_as_double n)
  | None => true
  end.

Definition convertible (a b : value) : bool :=
  match a, b with
  | VFloat _, VFloat _ => true
  | VFloat _, n | n, VFloat _ => fits_double n
  | _, _ => true
  end.

(** The product of a number with itself. *)
Inductive square_of : value -> value -> Prop :=
| square_int x n : as_int x = Some n -> square_of x (VInt (n * n))
| square_float f : square_of (VFloat f) (VFloat (float_mul f f)).

(** The events of a trace segment are all [isinstance] checks. *)
Definition only_checks (evs : list event) : bool :=
  forallb (fun ev => negb (is_arith ev)) evs.

(** The world before anything ran. *)
Definition w0 : world := mkWorld [] [].

(** C1 as it is worded: whatever pair of numbers is passed, a sum comes
    back. *)
Definition returns_sum_always (a b : value) : Prop :=
  forall w, exists v, fst (add a b w) = Return v /\ sum_of a b v.

(** C3 as it is worded, in its last clause: [add] raises exactly when at
    least one argument is outside the numeric kinds. *)
Definition raises_iff_not_numbers (a b : value) : Prop :=
  forall w,
    returns (fst (add a b w)) = false <->
    isinstance a numbers = false \/ isinstance b numbers = false.

(** C9 as it is worded: [add(a, b) == add(b, a)] evaluates to [True]. *)
Definition commutes_under_eq (a b : value) : Prop :=
  forall w, exists v v',
    fst (add a b w) = Return v /\ fst (add b a w) = Return v' /\
    num_eq v v' = Some true.

(** The distance between a finite float and a rational. *)
Definition float_error (f : spec_float) (q : Q) : option Q :=
  option_map (fun v => Qabs (Qminus v q)) (float_value f).

Definition within (err : option Q) (bound : Q) : bool :=
  match err with
  | Some e => Qle_bool e bound
  | None => false
  end.

End Spec.

Import Lit Unittest Spec.

(** ** Composing calls of [add] *)
Module Compose.

(** [add(add(a, b), c)] *)
Definition add_left (a b c : value) : M value :=
  ab <- add a b ;; add ab c.

(** [add(a, add(b, c))]: the inner call is evaluated first. *)
Definition add_right (a b c : value) : M value :=
  bc <- add b c ;; add a bc.

(** [-x] on a number ([bool] negates as the integer it is); a [TypeError]
    on every other operand. *)
Definition unary_neg (v : value) : outcome value :=
  match v with
  | VFloat f => Return (VFloat (SFopp f))
  | _ =>
      match as_int v with
      | Some n => Return (VInt (- n))
      | None => Raise (TypeError "bad operand type for unary -")
      end
  end.

(** Among the kinds of value modelled here ([None], [bool], [int],
    [float], [str], [list], [dict]) the two pairings, apart from two
    numbers, on which [+] returns: it concatenates two strings or two
    lists.  (Kinds outside the model -- tuples, bytes, complex numbers,
    fractions, decimals -- have a [+] of their own.) *)
Definition concatenable (a b : value) : bool :=
  match a, b with
  | VStr _, VStr _ | VList _, VList _ => true
  | _, _ => false
  end.

End Compose.

(** ** unittest.TestCase: assertions and test methods *)
Module TestCase.

(** How evaluation inside a test method goes on: with a value, with a
    failed assertion ([AssertionError], reported as a failure; only the
    assertion that failed is recorded, not its text), or with any other
    exception (reported as an error). *)
Inductive tres (A : Type) : Type :=
| TVal (a : A)
| TFail (assertion : string)
| TErr (e : exn).
Arguments TVal {A} a.
Arguments TFail {A} assertion.
Arguments TErr {A} e.

Definition T (A : Type) : Type := world -> tres A * world.

Definition tret {A} (a : A) : T A := fun w => (TVal a, w).

Definition tbind {A B} (m : T A) (k : A -> T B) : T B :=
  fun w =>
    match m w with
    | (TVal a, w') => k a w'
    | (TFail s, w') => (TFail s, w')
    | (TErr e, w') => (TErr e, w')
    end.

Definition fail {A} (assertion : string) : T A := fun w => (TFail assertion, w).

(** An expression of the code under test, evaluated inside a test. *)
Definition eval {A} (m : M A) : T A :=
  fun w =>
    match m w with
    | (Return a, w') => (TVal a, w')
    | (Raise e, w') => (TErr e, w')
    end.

Module Notations.
  Notation "x <~ m ;; k" := (tbind m (fun x => k))
    (at level 61, m at next level, right associativity).
  Notation "m ~~ k" := (tbind m (fun _ => k))
    (at level 61, right associativity).
End Notations.
Import Notations.

(** [first == second] where [second] is a number: a value outside the
    numeric tower is unequal to every number. *)
Definition eq_number (first second : value) : bool :=
  match num_eq first second with
  | Some b => b
  | None => false
  end.

(** [a - b] on the numeric tower, [TypeError] elsewhere (no value modelled
    here subtracts otherwise). *)
Definition binary_sub (a b : value) : outcome value :=
  match a, b with
  | VFloat x, VFloat y => Return (VFloat (float_sub x y))
  | VFloat x, _ =>
      match as_int b with
      | Some n => bind_outcome (int_as_double n) (fun y => Return (VFloat (float_sub x y)))
      | None => Raise (unsupported_operand "-")
      end
  | _, VFloat y =>
      match as_int a with
      | Some n => bind_outcome (int_as_double n) (fun x => Return (VFloat (float_sub x y)))
      | None => Raise (unsupported_operand "-")
      end
  | _, _ =>
      match as_int a, as_int b with
      | Some x, Some y => Return (VInt (x - y))
      | _, _ => Raise (unsupported_operand "-")
      end
  end.

(** [round(abs(diff), 7) == 0]: an integer rounds to itself; a float
    rounds to zero when its magnitude is at most 5e-8 (half to even on the
    exact value; 5e-8 itself is not a double); NaN and the infinities do
    not; anything else has no [abs]. *)
Definition rounds_to_zero (diff : value) : outcome bool :=
  match diff with
  | VFloat f =>
      Return match float_value (SFabs f) with
             | Some d => Qle_bool d (5 # 100000000)
             | None => false
             end
  | _ =>
      match as_int diff with
      | Some n => Return (Z.abs n =? 0)
      | None => Raise (TypeError "bad operand type for abs()")
      end
  end.

Definition assertEqual (first second : value) : T unit :=
  if eq_number first second then tret tt else fail "assertEqual".

Definition assertIsInstance (obj : value) (cls : list pytype) : T unit :=
  if isinstance obj cls then tret tt else fail "assertIsInstance".

(** [assertAlmostEqual(first, second)] with the default 7 places and
    [second] a number. *)
Definition assertAlmostEqual (first second : value) : T unit :=
  if eq_number first second then tret tt
  else
    diff <~ eval (lift (binary_sub first second)) ;;
    zero <~ eval (lift (rounds_to_zero diff)) ;;
    if zero then tret tt else fail "assertAlmostEqual".

(** [with self.assertRaises(TypeError): body]: a [TypeError] is swallowed,
    any other exception goes through, and a body that finishes is a
    failure. *)
Definition assertRaises_TypeError {A} (body : M A) : T unit :=
  fun w =>
    match body w with
    | (Raise (TypeError _), w') => (TVal tt, w')
    | (Raise e, w') => (TErr e, w')
    | (Return _, w') => (TFail "assertRaises", w')
    end.

(** [for x in items: body] *)
Fixpoint for_each {A} (items : list A) (body : A -> T unit) : T unit :=
  match items with
  | [] => tret tt
  | x :: rest => body x ~~ for_each rest body
  end.

Definition passes (t : T unit) (w : world) : bool :=
  match fst (t w) with
  | TVal _ => true
  | _ => false
  end.

End TestCase.

Import TestCase TestCase.Notations.

(** ** v2-test_some_functions.py *)
Module TestAdd.
Section Suite.

(** [from add import add] *)
Variable add : value -> value -> M value.

Definition test_returns_number : T unit :=
  r <~ eval (add (VInt 1) (VInt 2)) ;;
  assertIsInstance r [TInt; TFloat].

Definition test_works_with_ints : T unit :=
  r <~ eval (add (VInt 1) (VInt 2)) ;;
  assertEqual r (VInt 3) ~~
  r <~ eval (add (VInt (-2)) (VInt 2)) ;;
  assertEqual r (VInt 0) ~~
  r <~ eval (add (VInt (-5)) (VInt 100)) ;;
  assertEqual r (VInt 95).

Definition test_works_with_floats : T unit :=
  r <~ eval (add (VFloat f0_1) (VFloat f0_2)) ;;
  assertAlmostEqual r (VFloat f0_3) ~~
  r <~ eval (add (VFloat (SFopp f0_2)) (VFloat f0_2)) ;;
  assertAlmostEqual r (VInt 0).

Definition bad_values : list (value * value) :=
  [(VStr "1", VStr "2"); (VStr "1", VInt 2); (VList [], VList []);
   (VDict [(VStr "hello", VInt 3)], VInt 5)].

Definition test_errors_on_non_numbers : T unit :=
  for_each bad_values
    (fun '(first, second) => assertRaises_TypeError (add first second)).

Definition all_tests : list (T unit) :=
  [test_errors_on_non_numbers; test_returns_number;
   test_works_with_floats; test_works_with_ints].

End Suite.
End TestAdd.

(** ** test_square.py, first and second version *)
Module TestSquare.
Section Suite.

(** [from square import square] *)
Variable square : value -> M value.

(** v1/test_square.py *)
Definition v1_test_correct_values : T unit :=
  r <~ eval (square (VInt 1)) ;;
  assertEqual r (VInt 1).

(** v2/test_square.py *)
Definition test_correct_values : T unit :=
  r <~ eval (square (VInt 0)) ;;
  assertEqual r (VInt 0) ~~
  r <~ eval (square (VInt 1)) ;;
  assertEqual r (VInt 1) ~~
  r <~ eval (square (VInt 2)) ;;
  assertEqual r (VInt 4) ~~
  r <~ eval (square (VInt (-2))) ;;
  assertEqual r (VInt 4) ~~
  r <~ eval (square (VFloat f1_5)) ;;
  assertEqual r (VFloat f2_25) ~~
  r <~ eval (square (VFloat (SFopp f1_5))) ;;
  assertEqual r (VFloat f2_25).

Definition test_non_numbers : T unit :=
  assertRaises_TypeError (square (VStr "12")) ~~
  assertRaises_TypeError (square (VList [VInt 1; VInt 2; VInt 3])) ~~
  assertRaises_TypeError (square (VDict [(VStr "this", VStr "will not work")])).

End Suite.
End TestSquare.

(** Implementations without any type check: [return a + b] and
    [return x * x]. *)
Definition bare_add (a b : value) : M value := op_add a b.
Definition bare_square (x : value) : M value := op_mul x x.

(** ** person2.py and person4.py: [try] / [except] / [finally] *)
Module Finally.

Local Open Scope string_scope.

(** A raised exception: its class, whether that class derives from
    [Exception] ([KeyboardInterrupt] and [SystemExit] do not), and
    [str(e)]. *)
Record exc : Type := mkExc {
  exc_class : string;
  derives_Exception : bool;
  exc_str : string
}.

(** Standard output: what each [print] wrote, oldest first. *)
Definition stdout : Type := list string.

(** How a block of statements ends. *)
Inductive completion : Type :=
| Normal
| Returned (v : value)
| Raised (e : exc).

Definition stmt : Type := stdout -> completion * stdout.
Definition expr (A : Type) : Type := stdout -> (A + exc) * stdout.

Definition pure {A} (a : A) : expr A := fun out => (inl a, out).

(** [return e] *)
Definition return_ (e : expr value) : stmt :=
  fun out =>
    match e out with
    | (inl v, out') => (Returned v, out')
    | (inr err, out') => (Raised err, out')
    end.

(** [s1; s2] *)
Definition seq (s1 s2 : stmt) : stmt :=
  fun out =>
    match s1 out with
    | (Normal, out') => s2 out'
    | r => r
    end.

(** [try: body / except C as e: handler]: an exception of the body that
    the clause matches is handed to the handler; whatever the handler
    does, a return or a new exception included, is the result. *)
Definition try_except (body : stmt) (matches : exc -> bool) (handler : exc -> stmt) : stmt :=
  fun out =>
    match body out with
    | (Raised e, out') => if matches e then handler e out' else (Raised e, out')
    | r => r
    end.

(** [try: body / finally: fin]: the [finally] block always runs; when it
    ends normally the pending return or exception of the body goes on,
    and when it returns or raises itself, that replaces it. *)
Definition try_finally (body fin : stmt) : stmt :=
  fun out =>
    match body out with
    | (c, out') =>
        match fin out' with
        | (Normal, out'') => (c, out'')
        | r => r
        end
    end.

(** The value of a call whose body is [s]: falling off the end is
    [None]. *)
Definition call (s : stmt) : expr value :=
  fun out =>
    match s out with
    | (Normal, out') => (inl VNone, out')
    | (Returned v, out') => (inl v, out')
    | (Raised e, out') => (inr e, out')
    end.

(** An object as [process_person] uses it: the instance attributes set by
    [__init__] (strings, as annotated) and what calling its [get_id]
    does, if it has one. *)
Record object : Type := mkObject {
  class_name : string;
  attributes : list (string * string);
  get_id_method : option (expr value)
}.

Definition AttributeError (o : object) (name : string) : exc :=
  mkExc "AttributeError" true
    (String.append "'"
       (String.append (class_name o)
          (String.append "' object has no attribute '"
             (String.append name "'")))).

Fixpoint lookup (name : string) (attrs : list (string * string)) : option string :=
  match attrs with
  | [] => None
  | (k, v) :: rest => if String.eqb k name then Some v else lookup name rest
  end.

(** [o.name] for a data attribute *)
Definition getattr (o : object) (name : string) : string + exc :=
  match lookup name (attributes o) with
  | Some v => inl v
  | None => inr (AttributeError o name)
  end.

(** [person.get_id()] *)
Definition call_get_id (person : object) : expr value :=
  match get_id_method person with
  | Some m => m
  | None => fun out => (inr (AttributeError person "get_id"), out)
  end.

(** What [print(f"Error calling do_something for Person {first} {last}:", e)]
    writes. *)
Definition error_line (first last : string) (e : exc) : string :=
  String.append "Error calling do_something for Person "
    (String.append first
       (String.append " "
          (String.append last
             (String.append ": " (exc_str e))))).

(** The body of the [except Exception as e] clause, the same in both
    files: the f-string reads [person.first_name], then
    [person.last_name], and the line is printed. *)
Definition handler (person : object) (e : exc) : stmt :=
  fun out =>
    match getattr person "first_name" with
    | inr err => (Raised err, out)
    | inl first =>
        match getattr person "last_name" with
        | inr err => (Raised err, out)
        | inl last => (Normal, (out ++ [error_line first last e])%list)
        end
    end.

(** [get_id] of both [Person] classes *)
Definition Person_get_id : expr value := pure (VStr "abc123").

Module Person2.

(** [Person(first_name, last_name)] *)
Definition Person (first_name last_name : string) : object :=
  mkObject "Person"
    [("first_name", first_name); ("last_name", last_name)]
    (Some Person_get_id).

(** [def process_person(person)] with [return None] after the [try]
    statement *)
Definition process_person (person : object) : expr value :=
  call (seq (try_except (return_ (call_get_id person))
                        derives_Exception (handler person))
            (return_ (pure VNone))).

End Person2.

Module Person4.

(** [Person(name)] *)
Definition Person (name : string) : object :=
  mkObject "Person" [("name", name)] (Some Person_get_id).

(** [def process_person(person)] with [return None] in the [finally]
    clause *)
Definition process_person (person : object) : expr value :=
  call (try_finally (try_except (return_ (call_get_id person))
                                derives_Exception (handler person))
                    (return_ (pure VNone))).

End Person4.

End Finally.

(** ** ranking_from_ranked_order.py: [ranking_to_individual_games] *)
Module Ranking.

(** A row of the frame: the columns 'Player i', 'Player j', 'result'. *)
Record game : Type := mkGame {
  player_i : string;
  player_j : string;
  result : Z
}.

(** The frame as the list of its rows, in index order (dtypes and the
    index itself are not modelled). *)
Definition DataFrame : Type := list game.

(** [pd.concat([data, new_row], ignore_index=True)] for a one-row frame *)
Definition concat_row (data : DataFrame) (new_row : game) : DataFrame :=
  data ++ [new_row].

(** [l.index(x)]: the position of the first element equal to [x]; [None]
    stands for the [ValueError] of a missing element. *)
Fixpoint index (x : string) (l : list string) : option nat :=
  match l with
  | [] => None
  | y :: rest => if String.eqb y x then Some O else option_map S (index x rest)
  end.

(** The inner loop, over [ranking[ranking.index(player_i) + 1:]] *)
Definition games_of (player_i : string) (later : list string) (data : DataFrame)
  : DataFrame :=
  fold_left (fun data player_j => concat_row data (mkGame player_i player_j 1))
            later data.

Definition ranking_to_individual_games (ranking : list string) : option DataFrame :=
  fold_left
    (fun acc player_i =>
       match acc with
       | None => None
       | Some data =>
           match index player_i ranking with
           | None => None
           | Some k => Some (games_of player_i (skipn (S k) ranking) data)
           end
       end)
    ranking (Some []).

(** The rows one pass of the outer loop adds for [player_i]. *)
Definition games_from (ranking : list string) (player_i : string) : DataFrame :=
  match index player_i ranking with
  | Some k => map (fun player_j => mkGame player_i player_j 1) (skipn (S k) ranking)
  | None => []
  end.

(** Every player against every player listed after them, in order. *)
Fixpoint round_robin (ranking : list string) : DataFrame :=
  match ranking with
  | [] => []
  | p :: later => map (fun q => mkGame p q 1) later ++ round_robin later
  end.

End Ranking.

(** ** in_python.py: [calculate_sample_variance] *)
Module Variance.

Import Finally.
Local Open Scope string_scope.

(** The value of an expression, or the exception it raises. *)
Definition R (A : Type) : Type := (A + exc)%type.

Definition rbind {A B} (r : R A) (k : A -> R B) : R B :=
  match r with
  | inl a => k a
  | inr e => inr e
  end.

Definition of_outcome {A} (o : outcome A) : R A :=
  match o with
  | Return a => inl a
  | Raise (TypeError msg) => inr (mkExc "TypeError" true msg)
  | Raise (OverflowError msg) => inr (mkExc "OverflowError" true msg)
  end.

Definition ZeroDivisionError (msg : string) : exc :=
  mkExc "ZeroDivisionError" true msg.

Definition float_is_zero (f : spec_float) : bool :=
  match f with
  | S754_zero _ => true
  | _ => false
  end.

Definition float_is_inf (f : spec_float) : bool :=
  match f with
  | S754_infinity _ => true
  | _ => false
  end.

(** [a / b] on two integers: [ZeroDivisionError] for a zero divisor;
    otherwise the quotient correctly rounded to a double, a signed zero
    for a zero dividend, [OverflowError] when out of range. *)
Definition int_true_divide (a b : Z) : R spec_float :=
  if (b =? 0)%Z then inr (ZeroDivisionError "division by zero")
  else
    let negate := xorb (a <? 0)%Z (b <? 0)%Z in
    if (a =? 0)%Z then inl (S754_zero negate)
    else
      let '(q, e, l) := SFdiv_core_binary prec emax (Z.abs a) 0 (Z.abs b) 0 in
      match binary_round_aux prec emax negate q e l with
      | S754_infinity _ =>
          inr (mkExc "OverflowError" true "integer division result too large for a float")
      | f => inl f
      end.

(** [x / y] on two doubles *)
Definition float_true_divide (x y : spec_float) : R spec_float :=
  if float_is_zero y then inr (ZeroDivisionError "float division by zero")
  else inl (float_div x y).

(** [a / b]: both operands are converted before the divisor is tested. *)
Definition true_div (a b : value) : R value :=
  match a, b with
  | VFloat x, VFloat y => rbind (float_true_divide x y) (fun q => inl (VFloat q))
  | VFloat x, _ =>
      match as_int b with
      | Some n =>
          rbind (of_outcome (int_as_double n)) (fun y =>
          rbind (float_true_divide x y) (fun q => inl (VFloat q)))
      | None => inr (mkExc "TypeError" true "unsupported operand type(s) for /")
      end
  | _, VFloat y =>
      match as_int a with
      | Some n =>
          rbind (of_outcome (int_as_double n)) (fun x =>
          rbind (float_true_divide x y) (fun q => inl (VFloat q)))
      | None => inr (mkExc "TypeError" true "unsupported operand type(s) for /")
      end
  | _, _ =>
      match as_int a, as_int b with
      | Some x, Some y => rbind (int_true_divide x y) (fun q => inl (VFloat q))
      | _, _ => inr (mkExc "TypeError" true "unsupported operand type(s) for /")
      end
  end.

Section WithLibm.

(** C's [pow(x, 2.0)] for a finite [x] greater than 0 and different from
    1: the one step Python leaves to the platform's libm. *)
Variable libm_pow_2 : spec_float -> spec_float.

(** [x ** 2] on a double: NaN, the infinities, zero and 1 are settled
    before libm is called; a negative base is squared as its absolute
    value; an infinite result of libm is an [OverflowError]. *)
Definition float_pow_2 (x : spec_float) : R spec_float :=
  match x with
  | S754_nan => inl S754_nan
  | S754_infinity _ => inl (S754_infinity false)
  | S754_zero _ => inl (S754_zero false)
  | S754_finite _ m e =>
      if SFeqb (S754_finite false m e) f1_0 then inl f1_0
      else
        let r := libm_pow_2 (S754_finite false m e) in
        if float_is_inf r
        then inr (mkExc "OverflowError" true "(34, 'Numerical result out of range')")
        else inl r
  end.

(** [v ** 2] *)
Definition pow_2 (v : value) : R value :=
  match v with
  | VFloat x => rbind (float_pow_2 x) (fun r => inl (VFloat r))
  | _ =>
      match as_int v with
      | Some n => inl (VInt (n * n))
      | None => inr (mkExc "TypeError" true "unsupported operand type(s) for ** or pow()")
      end
  end.

(** [sum(map(f, items))]: starting from the integer 0, each item is
    produced and then added with [+], in order (plain left-to-right
    accumulation). *)
Definition sum_map (f : value -> R value) (items : list value) : R value :=
  fold_left
    (fun acc x =>
       rbind acc (fun total =>
       rbind (f x) (fun item => of_outcome (binary_add total item))))
    items (inl (VInt 0)).

(** [sum(items)] *)
Definition sum (items : list value) : R value := sum_map (fun x => inl x) items.

(** [def calculate_sample_variance(numbers)] *)
Definition calculate_sample_variance (numbers : list value) : R value :=
  let n := VInt (Z.of_nat (List.length numbers)) in
  rbind (sum numbers) (fun total =>
  rbind (true_div total n) (fun x_bar =>
  rbind (sum_map (fun x =>
           rbind (of_outcome (binary_sub x x_bar)) pow_2) numbers) (fun squares =>
  rbind (of_outcome (binary_sub n (VInt 1))) (fun n_minus_1 =>
  true_div squares n_minus_1)))).

End WithLibm.

(** A libm whose [pow(x, 2.0)] is the correctly rounded square. *)
Definition exact_square (x : spec_float) : spec_float := float_mul x x.

(** The expression raises, with an exception of one of the classes. *)
Definition fails_with {A} (r : R A) (classes : list string) : Prop :=
  exists e, r = inr e /\ In (exc_class e) classes.

End Variance.

(** * Properties *)

Ltac run_py :=
  cbv beta iota delta
    [add square op_or op_not builtin_isinstance op_add op_mul
     bind tick ret raise lift globals trace negb].

(** ** The assertions of the test suites *)

Example test_works_with_ints :
  fst (add (VInt 1) (VInt 2) w0) = Return (VInt 3) /\
  fst (add (VInt (-2)) (VInt 2) w0) = Return (VInt 0) /\
  fst (add (VInt (-5)) (VInt 100) w0) = Return (VInt 95).
Proof. repeat split. Qed.

Example test_errors_on_non_numbers :
  forallb (fun '(first, second) => is_TypeError (fst (add first second w0)))
    [(VStr "1", VStr "2"); (VStr "1", VInt 2); (VList [], VList []);
     (VDict [(VStr "hello", VInt 3)], VInt 5)] = true.
Proof. reflexivity. Qed.

Example test_square_correct_values :
  fst (square (VInt 0) w0) = Return (VInt 0) /\
  fst (square (VInt 1) w0) = Return (VInt 1) /\
  fst (square (VInt 2) w0) = Return (VInt 4) /\
  fst (square (VInt (-2)) w0) = Return (VInt 4) /\
  fst (square (VFloat f1_5) w0) = Return (VFloat f2_25) /\
  fst (square (VFloat (SFopp f1_5)) w0) = Return (VFloat f2_25).
Proof. repeat split. Qed.

(** ** The class test *)

Lemma isinstance_numbers (v : value) :
  isinstance v numbers =
  match v with
  | VBool _ | VInt _ | VFloat _ => true
  | _ => false
  end.
Proof. destruct v; reflexivity. Qed.

Lemma number_cases (v : value) :
  isinstance v numbers = true ->
  (exists n, as_int v = Some n /\ (v = VInt n \/ exists b, v = VBool b)) \/
  (exists f, v = VFloat f).
Proof.
  destruct v; simpl; try discriminate; intros _.
  - left. eexists. split; [reflexivity | right; eauto].
  - left. eexists. split; [reflexivity | left; reflexivity].
  - right. eauto.
Qed.

(** ** Running [add] *)

Lemma add_accepts a b w :
  isinstance a numbers = true -> isinstance b numbers = true ->
  add a b w =
  (binary_add a b,
   mkWorld (globals w)
     (EvBinaryAdd a b :: EvIsinstance b numbers :: EvIsinstance a numbers :: trace w)).
Proof. intros Ha Hb. run_py. rewrite Ha. run_py. rewrite Hb. reflexivity. Qed.

Lemma add_rejects_first a b w :
  isinstance a numbers = false ->
  add a b w =
  (Raise (TypeError add_message),
   mkWorld (globals w) (EvIsinstance a numbers :: trace w)).
Proof. intros Ha. run_py. rewrite Ha. reflexivity. Qed.

Lemma add_rejects_second a b w :
  isinstance a numbers = true -> isinstance b numbers = false ->
  add a b w =
  (Raise (TypeError add_message),
   mkWorld (globals w) (EvIsinstance b numbers :: EvIsinstance a numbers :: trace w)).
Proof. intros Ha Hb. run_py. rewrite Ha. run_py. rewrite Hb. reflexivity. Qed.

Lemma add_rejects_result a b w :
  isinstance a numbers = false \/ isinstance b numbers = false ->
  fst (add a b w) = Raise (TypeError add_message).
Proof.
  intros [Ha | Hb].
  - rewrite add_rejects_first by assumption. reflexivity.
  - destruct (isinstance a numbers) eqn:Ha.
    + rewrite add_rejects_second by assumption. reflexivity.
    + rewrite add_rejects_first by assumption. reflexivity.
Qed.

(** ** [+] on numbers *)

Lemma int_as_double_cases n :
  (exists f, int_as_double n = Return f) \/ int_as_double n = Raise overflow.
Proof.
  unfold int_as_double.
  destruct (binary_normalize prec emax n 0 false); eauto.
Qed.

Lemma binary_add_numbers a b :
  isinstance a numbers = true -> isinstance b numbers = true ->
  (convertible a b = true /\ exists v, binary_add a b = Return v /\ sum_of a b v) \/
  (convertible a b = false /\ binary_add a b = Raise overflow).
Proof.
  intros Ha Hb.
  destruct (number_cases a Ha) as [(x & Hx & Hxa) | (f & ->)];
    destruct (number_cases b Hb) as [(y & Hy & Hyb) | (g & ->)].
  - left. split.
    + destruct Hxa as [-> | (c & ->)], Hyb as [-> | (d & ->)]; reflexivity.
    + exists (VInt (x + y)). split; [| now apply sum_int].
      destruct Hxa as [-> | (c & ->)], Hyb as [-> | (d & ->)];
        simpl in *; congruence.
  - assert (Hadd : binary_add a (VFloat g) =
                   bind_outcome (int_as_double x) (fun x' => Return (VFloat (float_add x' g)))).
    { destruct Hxa as [-> | (c & ->)]; simpl in *; congruence. }
    assert (Hconv : convertible a (VFloat g) = returns (int_as_double x)).
    { unfold convertible, fits_double.
      destruct Hxa as [-> | (c & ->)]; simpl in *; congruence. }
    rewrite Hadd, Hconv.
    destruct (int_as_double_cases x) as [(x' & Hx') | Hx'].
    + left. rewrite Hx'. split; [reflexivity |].
      eexists. split; [reflexivity |]. now apply sum_int_float with (n := x).
    + right. rewrite Hx'. split; reflexivity.
  - assert (Hadd : binary_add (VFloat f) b =
                   bind_outcome (int_as_double y) (fun y' => Return (VFloat (float_add f y')))).
    { destruct Hyb as [-> | (c & ->)]; simpl in *; congruence. }
    assert (Hconv : convertible (VFloat f) b = returns (int_as_double y)).
    { unfold convertible, fits_double.
      destruct Hyb as [-> | (c & ->)]; simpl in *; congruence. }
    rewrite Hadd, Hconv.
    destruct (int_as_double_cases y) as [(y' & Hy') | Hy'].
    + left. rewrite Hy'. split; [reflexivity |].
      eexists. split; [reflexivity |]. now apply sum_float_int with (n := y).
    + right. rewrite Hy'. split; reflexivity.
  - left. split; [reflexivity |]. eexists. split; [reflexivity | constructor].
Qed.

Lemma add_numbers_result a b w :
  isinstance a numbers = true -> isinstance b numbers = true ->
  fst (add a b w) = binary_add a b.
Proof. intros Ha Hb. rewrite add_accepts by assumption. reflexivity. Qed.

(** ** C1: the sum of two numbers *)

(** C1, where the wording fails: [add(10**400, 1.0)].  Both arguments pass
    the [isinstance] test, and [a + b] then raises [OverflowError] while
    converting the integer, so nothing is returned. *)
Lemma add_huge_int_plus_float_raises :
  isinstance (VInt (10 ^ 400)) numbers = true /\
  isinstance (VFloat f1_0) numbers = true /\
  fst (add (VInt (10 ^ 400)) (VFloat f1_0) w0) = Raise overflow /\
  ~ returns_sum_always (VInt (10 ^ 400)) (VFloat f1_0).
Proof.
  assert (H : fst (add (VInt (10 ^ 400)) (VFloat f1_0) w0) = Raise overflow)
    by (vm_compute; reflexivity).
  repeat split; try reflexivity; try exact H.
  intros Hsum. destruct (Hsum w0) as (v & Hv & _).
  rewrite H in Hv. discriminate.
Qed.

(** C1 (amended): for two numbers [a] and [b], [add(a, b)] returns their
    sum -- the exact integer sum for two integers, the binary64 sum for two
    floats, the binary64 sum after conversion for an integer with a float --
    provided that an integer meeting a float fits in a double; when it does
    not, the [OverflowError] of [a + b] comes out instead. *)
Theorem add_returns_sum_of_numbers a b w :
  isinstance a numbers = true -> isinstance b numbers = true ->
  (convertible a b = true ->
   exists v, fst (add a b w) = Return v /\ sum_of a b v) /\
  (convertible a b = false -> fst (add a b w) = Raise overflow) /\
  (forall x y, a = VInt x -> b = VInt y ->
   fst (add a b w) = Return (VInt (x + y))).
Proof.
  intros Ha Hb. rewrite (add_numbers_result a b w Ha Hb).
  destruct (binary_add_numbers a b Ha Hb) as [(Hc & v & Hv & Hs) | (Hc & Hr)].
  - split; [| split].
    + intros _. exists v. now split.
    + congruence.
    + intros x y -> ->. reflexivity.
  - split; [| split].
    + congruence.
    + intros _. exact Hr.
    + intros x y -> ->. discriminate.
Qed.

Lemma add_returns_sum_of_numbers_witness :
  fst (add (VInt (-5)) (VInt 100) w0) = Return (VInt 95).
Proof.
  exact (proj2 (proj2 (add_returns_sum_of_numbers (VInt (-5)) (VInt 100) w0
                         eq_refl eq_refl))
           (-5) 100 eq_refl eq_refl).
Defined.

(** ** C2: rejection of anything that is not a number *)

(** Without the guard, [+] would accept some of the rejected pairs. *)
Example plus_concatenates_strings :
  binary_add (VStr "1") (VStr "2") = Return (VStr "12").
Proof. reflexivity. Qed.

(** C2: when at least one argument is not a number, [add] raises the
    [TypeError] of its own guard, unwrapped and with the guard's message;
    up to that point only [isinstance] checks were evaluated (no [+]), and
    the module state is the one the call started from. *)
Theorem add_rejects_non_numbers a b w :
  isinstance a numbers = false \/ isinstance b numbers = false ->
  exists checks,
    add a b w =
    (Raise (TypeError add_message), mkWorld (globals w) (checks ++ trace w)) /\
    only_checks checks = true.
Proof.
  intros H.
  destruct (isinstance a numbers) eqn:Ha.
  - destruct H as [H | Hb]; [discriminate |].
    exists [EvIsinstance b numbers; EvIsinstance a numbers].
    split; [now apply add_rejects_second | reflexivity].
  - exists [EvIsinstance a numbers].
    split; [now apply add_rejects_first | reflexivity].
Qed.

Lemma add_rejects_non_numbers_witness :
  exists checks,
    add (VDict [(VStr "hello", VInt 3)]) (VInt 5) w0 =
    (Raise (TypeError add_message), mkWorld [] (checks ++ [])) /\
    only_checks checks = true.
Proof.
  exact (add_rejects_non_numbers (VDict [(VStr "hello", VInt 3)]) (VInt 5) w0
           (or_introl eq_refl)).
Defined.

(** ** C3: what the validation accepts *)

(** C3, where the wording fails: [add(1.0, 10**400)].  Both arguments are
    of a numeric kind, and [add] raises all the same: the [OverflowError]
    of [a + b], not the guard's [TypeError]. *)
Lemma add_raises_on_two_numbers :
  isinstance (VFloat f1_0) numbers = true /\
  isinstance (VInt (10 ^ 400)) numbers = true /\
  fst (add (VFloat f1_0) (VInt (10 ^ 400)) w0) = Raise overflow /\
  ~ raises_iff_not_numbers (VFloat f1_0) (VInt (10 ^ 400)).
Proof.
  assert (H : fst (add (VFloat f1_0) (VInt (10 ^ 400)) w0) = Raise overflow)
    by (vm_compute; reflexivity).
  repeat split; try reflexivity; try exact H.
  intros Hiff. destruct (proj1 (Hiff w0)) as [Ha | Hb].
  - rewrite H. reflexivity.
  - discriminate.
  - discriminate.
Qed.

(** C3 (amended): the guard of [add] lets through exactly the instances of
    [int] (which in Python include the booleans, [bool] being a subclass
    of [int]) and of [float], whatever their sign; every other kind of
    value is rejected with the guard's [TypeError] -- strings even when
    they spell a number, lists and dicts whatever they contain.  [add]
    raises that [TypeError] exactly when at least one argument is not such
    a number; and it raises at all exactly then or when, of two numbers,
    an integer meeting a float does not fit in a double (the
    [OverflowError] of [a + b]). *)
Theorem add_validates_exactly_numbers :
  (forall v,
     isinstance v numbers = true <->
     (exists z, v = VInt z) \/ (exists b, v = VBool b) \/ (exists f, v = VFloat f)) /\
  (forall a b w,
     is_TypeError (fst (add a b w)) = true <->
     isinstance a numbers = false \/ isinstance b numbers = false) /\
  (forall a b w,
     returns (fst (add a b w)) = false <->
     isinstance a numbers = false \/ isinstance b numbers = false \/
     convertible a b = false) /\
  (forall a b w,
     fst (add a b w) = Raise overflow <->
     isinstance a numbers = true /\ isinstance b numbers = true /\
     convertible a b = false) /\
  (forall s other w,
     fst (add (VStr s) other w) = Raise (TypeError add_message) /\
     fst (add other (VStr s) w) = Raise (TypeError add_message)) /\
  (forall items other w,
     fst (add (VList items) other w) = Raise (TypeError add_message) /\
     fst (add other (VList items) w) = Raise (TypeError add_message)) /\
  (forall entries other w,
     fst (add (VDict entries) other w) = Raise (TypeError add_message) /\
     fst (add other (VDict entries) w) = Raise (TypeError add_message)).
Proof.
  split; [| split; [| split; [| split]]];
    [| | | | repeat split; apply add_rejects_result;
             solve [left; reflexivity | right; reflexivity]].
  - intros v. rewrite isinstance_numbers. split.
    + destruct v; try discriminate; eauto.
    + intros [(z & ->) | [(b & ->) | (f & ->)]]; reflexivity.
  - intros a b w. split.
    + intros Herr.
      destruct (isinstance a numbers) eqn:Ha; [| now left].
      destruct (isinstance b numbers) eqn:Hb; [| now right].
      rewrite (add_numbers_result a b w Ha Hb) in Herr.
      destruct (binary_add_numbers a b Ha Hb) as [(_ & v & Hv & _) | (_ & Hr)].
      * rewrite Hv in Herr. discriminate.
      * rewrite Hr in Herr. discriminate.
    + intros H. now rewrite (add_rejects_result a b w H).
  - intros a b w.
    destruct (isinstance a numbers) eqn:Ha;
      [destruct (isinstance b numbers) eqn:Hb |].
    + rewrite (add_numbers_result a b w Ha Hb).
      destruct (binary_add_numbers a b Ha Hb) as [(Hc & v & Hv & _) | (Hc & Hr)].
      * rewrite Hv, Hc. cbn. split; [discriminate |].
        intros [H | [H | H]]; discriminate.
      * rewrite Hr, Hc. cbn. split; auto.
    + rewrite add_rejects_result by auto. cbn. split; auto.
    + rewrite add_rejects_result by auto. cbn. split; auto.
  - intros a b w.
    destruct (isinstance a numbers) eqn:Ha;
      [destruct (isinstance b numbers) eqn:Hb |].
    + rewrite (add_numbers_result a b w Ha Hb).
      destruct (binary_add_numbers a b Ha Hb) as [(Hc & v & Hv & _) | (Hc & Hr)].
      * rewrite Hv, Hc. split; [discriminate |].
        intros (_ & _ & H). discriminate.
      * rewrite Hr, Hc. split; auto.
    + rewrite add_rejects_result by auto. split; [discriminate |].
      intros (_ & H & _). discriminate.
    + rewrite add_rejects_result by auto. split; [discriminate |].
      intros (H & _). discriminate.
Qed.

Lemma add_validates_exactly_numbers_witness :
  isinstance (VInt (-7)) numbers = true /\
  is_TypeError (fst (add (VStr "1") (VInt 2) w0)) = true.
Proof.
  destruct add_validates_exactly_numbers as (Hkind & Hraise & _).
  split.
  - apply (proj2 (Hkind (VInt (-7)))). left. exists (-7). reflexivity.
  - apply (proj2 (Hraise (VStr "1") (VInt 2) w0)). left. reflexivity.
Defined.

(** ** Running [square] *)

Lemma square_accepts x w :
  isinstance x numbers = true ->
  square x w =
  (binary_mul x x,
   mkWorld (globals w) (EvBinaryMul x x :: EvIsinstance x numbers :: trace w)).
Proof. intros Hx. run_py. rewrite Hx. reflexivity. Qed.

Lemma square_rejects x w :
  isinstance x numbers = false ->
  square x w =
  (Raise (TypeError square_message),
   mkWorld (globals w) (EvIsinstance x numbers :: trace w)).
Proof. intros Hx. run_py. rewrite Hx. reflexivity. Qed.

Lemma binary_mul_self x :
  isinstance x numbers = true ->
  exists v, binary_mul x x = Return v /\ square_of x v.
Proof.
  intros Hx.
  destruct (number_cases x Hx) as [(n & Hn & [-> | (b & ->)]) | (f & ->)].
  - exists (VInt (n * n)). split; [reflexivity | now constructor].
  - simpl in Hn. injection Hn as <-.
    exists (VInt (Z.b2z b * Z.b2z b)). split; [reflexivity | now constructor].
  - exists (VFloat (float_mul f f)). split; [reflexivity | constructor].
Qed.

(** ** C4: the square of a number *)

(** C4: for every number [x] (an [int], a [bool] or a [float], negative or
    not), [square(x)] returns [x] multiplied by itself: the exact integer
    product for an integer, the binary64 product for a float.  In
    particular [square(1) == 1], [square(0) == 0], [square(-2) == 4] and
    [square(1.5) == 2.25]. *)
Theorem square_multiplies_number :
  (forall x w,
     isinstance x numbers = true ->
     exists v, fst (square x w) = Return v /\ square_of x v) /\
  (forall n w, fst (square (VInt n) w) = Return (VInt (n * n))) /\
  (forall f w, fst (square (VFloat f) w) = Return (VFloat (float_mul f f))) /\
  (forall w, fst (square (VInt 1) w) = Return (VInt 1)) /\
  (forall w, fst (square (VInt 0) w) = Return (VInt 0)) /\
  (forall w, fst (square (VInt (-2)) w) = Return (VInt 4)) /\
  (forall w, fst (square (VFloat f1_5) w) = Return (VFloat f2_25)) /\
  num_eq (VFloat f2_25) (VFloat f2_25) = Some true.
Proof.
  split; [| repeat split; reflexivity].
  intros x w Hx. rewrite square_accepts by assumption.
  now apply binary_mul_self.
Qed.

Lemma square_multiplies_number_witness :
  exists v, fst (square (VFloat (SFopp f1_5)) w0) = Return v /\
            square_of (VFloat (SFopp f1_5)) v.
Proof.
  exact (proj1 square_multiplies_number (VFloat (SFopp f1_5)) w0 eq_refl).
Defined.

(** ** C5: [square] of anything that is not a number *)

(** C5: for every [x] that is not a number -- any string, any list, any
    dict -- [square(x)] raises a [TypeError], after the [isinstance] check
    alone (no [*]) and leaving the module state as it was; in particular
    for ["12"], [[1, 2, 3]] and [{"this": "will not work"}]. *)
Theorem square_rejects_non_numbers :
  (forall x w,
     isinstance x numbers = false ->
     exists checks msg,
       square x w =
       (Raise (TypeError msg), mkWorld (globals w) (checks ++ trace w)) /\
       only_checks checks = true) /\
  (forall s w, is_TypeError (fst (square (VStr s) w)) = true) /\
  (forall items w, is_TypeError (fst (square (VList items) w)) = true) /\
  (forall entries w, is_TypeError (fst (square (VDict entries) w)) = true) /\
  (forall w, is_TypeError (fst (square (VStr "12") w)) = true) /\
  (forall w, is_TypeError (fst (square (VList [VInt 1; VInt 2; VInt 3]) w)) = true) /\
  (forall w,
     is_TypeError (fst (square (VDict [(VStr "this", VStr "will not work")]) w)) = true).
Proof.
  split; [| repeat split; reflexivity].
  intros x w Hx.
  exists [EvIsinstance x numbers], square_message.
  split; [now apply square_rejects | reflexivity].
Qed.

Lemma square_rejects_non_numbers_witness :
  exists checks msg,
    square (VList [VInt 1; VInt 2; VInt 3]) w0 =
    (Raise (TypeError msg), mkWorld [] (checks ++ [])) /\
    only_checks checks = true.
Proof.
  exact (proj1 square_rejects_non_numbers (VList [VInt 1; VInt 2; VInt 3]) w0 eq_refl).
Defined.

(** ** C7: floats *)

Lemma literals_are_nearest :
  f0_1 = float_div (float_of_int 1) (float_of_int 10) /\
  f0_2 = float_div (float_of_int 2) (float_of_int 10) /\
  f0_3 = float_div (float_of_int 3) (float_of_int 10) /\
  f1_5 = float_div (float_of_int 3) (float_of_int 2) /\
  f2_25 = float_div (float_of_int 9) (float_of_int 4) /\
  f1_0 = float_of_int 1 /\
  valid_binary prec emax f0_1 && valid_binary prec emax f0_2 &&
  valid_binary prec emax f0_3 && valid_binary prec emax f1_5 &&
  valid_binary prec emax f2_25 && valid_binary prec emax f1_0 = true.
Proof. repeat split; vm_compute; reflexivity. Qed.

(** C7: on two floats [add] is binary64 addition.  [add(0.1, 0.2)] is the
    double next to 0.3 -- not equal to it, within half a unit in the last
    place of the exact sum of its operands, and almost equal to 0.3 at
    unittest's 7 places; [add(-0.2, 0.2)] is 0.0, equal to the integer 0. *)
Theorem add_floats_is_binary64_addition :
  (forall x y w,
     fst (add (VFloat x) (VFloat y) w) = Return (VFloat (float_add x y))) /\
  (exists r,
     (forall w, fst (add (VFloat f0_1) (VFloat f0_2) w) = Return (VFloat r)) /\
     match float_value f0_1, float_value f0_2 with
     | Some qa, Some qb => within (float_error r (Qplus qa qb)) (1 # 2 ^ 55)
     | _, _ => false
     end = true /\
     within (float_error r (3 # 10)) (1 # 10 ^ 15) = true /\
     almost_equal r f0_3 = true /\
     SFeqb r f0_3 = false) /\
  (exists r,
     (forall w, fst (add (VFloat (SFopp f0_2)) (VFloat f0_2) w) = Return (VFloat r)) /\
     r = f0_0 /\
     almost_equal r f0_0 = true /\
     num_eq (VFloat r) (VInt 0) = Some true).
Proof.
  split; [| split].
  - intros x y w. now rewrite add_numbers_result.
  - exists (float_add f0_1 f0_2).
    split; [intros w; now rewrite add_numbers_result |].
    repeat split; vm_compute; reflexivity.
  - exists (float_add (SFopp f0_2) f0_2).
    split; [intros w; now rewrite add_numbers_result |].
    repeat split; vm_compute; reflexivity.
Qed.

(** ** C8: booleans *)

(** C8: a boolean passes the guard, because [isinstance(True, int)] holds;
    for every boolean [b] and number [n], [add(b, n)] returns the sum with
    [b] counted as 0 or 1 -- an [int] when [n] is an integer or a boolean,
    a [float] when [n] is a float -- and never the guard's [TypeError]. *)
Theorem add_accepts_booleans (b : bool) (n : value) (w : world) :
  isinstance n numbers = true ->
  isinstance (VBool b) numbers = true /\
  exists v,
    fst (add (VBool b) n w) = Return v /\
    match n with
    | VInt z => v = VInt (Z.b2z b + z)
    | VBool c => v = VInt (Z.b2z b + Z.b2z c)
    | VFloat f => v = VFloat (float_add (if b then f1_0 else f0_0) f)
    | _ => False
    end.
Proof.
  intros Hn. split; [reflexivity |].
  rewrite add_numbers_result by (assumption || reflexivity).
  destruct n; try discriminate.
  - eexists. split; reflexivity.
  - eexists. split; reflexivity.
  - destruct b; eexists; split; reflexivity.
Qed.

Lemma add_accepts_booleans_witness :
  fst (add (VBool true) (VInt 2) w0) = Return (VInt 3).
Proof.
  destruct (add_accepts_booleans true (VInt 2) w0 eq_refl) as (_ & v & Hv & ->).
  exact Hv.
Defined.

(** ** C9: commutativity *)

Lemma float_add_comm x y : float_add x y = float_add y x.
Proof.
  unfold float_add.
  destruct x as [sx | sx | | sx mx ex], y as [sy | sy | | sy my ey];
    try reflexivity;
    try (destruct sx, sy; reflexivity).
  cbn [SFadd]. rewrite Z.min_comm. f_equal. apply Z.add_comm.
Qed.

Lemma binary_add_comm a b :
  isinstance a numbers = true -> isinstance b numbers = true ->
  binary_add a b = binary_add b a.
Proof.
  intros Ha Hb.
  destruct a; try discriminate; destruct b; try discriminate; cbn;
    try (rewrite Z.add_comm; reflexivity);
    try (destruct (int_as_double _); cbn; [rewrite float_add_comm |]; reflexivity).
  now rewrite float_add_comm.
Qed.

Lemma add_comm_result a b w : fst (add a b w) = fst (add b a w).
Proof.
  destruct (isinstance a numbers) eqn:Ha.
  - destruct (isinstance b numbers) eqn:Hb.
    + rewrite !add_numbers_result by assumption. now apply binary_add_comm.
    + rewrite !add_rejects_result; auto.
  - rewrite !add_rejects_result; auto.
Qed.

Lemma SFeqb_refl f : is_nan f = false -> SFeqb f f = true.
Proof.
  unfold SFeqb.
  destruct f as [s | s | | s m e]; cbn; try discriminate; intros _;
    try (destruct s; reflexivity).
  destruct s; rewrite Z.compare_refl, Pos.compare_cont_refl; reflexivity.
Qed.

Lemma add_returns_a_number a b w v :
  fst (add a b w) = Return v ->
  (exists z, v = VInt z) \/ (exists f, v = VFloat f).
Proof.
  intros Hv.
  destruct (isinstance a numbers) eqn:Ha;
    [destruct (isinstance b numbers) eqn:Hb |];
    try (rewrite add_rejects_result in Hv by auto; discriminate).
  rewrite add_numbers_result in Hv by assumption.
  destruct (binary_add_numbers a b Ha Hb) as [(_ & v' & Hv' & Hs) | (_ & Hr)];
    [| congruence].
  assert (v' = v) as -> by congruence.
  destruct Hs; eauto.
Qed.

(** C9, where the wording fails: [add(float("nan"), 1.0)] and
    [add(1.0, float("nan"))] both return NaN, and NaN [==] NaN is false. *)
Lemma add_nan_results_compare_unequal :
  isinstance (VFloat S754_nan) numbers = true /\
  isinstance (VFloat f1_0) numbers = true /\
  fst (add (VFloat S754_nan) (VFloat f1_0) w0) = Return (VFloat S754_nan) /\
  fst (add (VFloat f1_0) (VFloat S754_nan) w0) = Return (VFloat S754_nan) /\
  num_eq (VFloat S754_nan) (VFloat S754_nan) = Some false /\
  ~ commutes_under_eq (VFloat S754_nan) (VFloat f1_0).
Proof.
  repeat split; try reflexivity.
  intros H. destruct (H w0) as (v & v' & Hv & Hv' & Heq).
  cbv in Hv, Hv'. injection Hv as <-. injection Hv' as <-.
  discriminate.
Qed.

(** C9 (amended): [add(a, b)] and [add(b, a)] have the same outcome -- the
    same number returned or the same error raised -- so one signals the
    guard's [TypeError] exactly when the other does; and whenever the
    number returned is not NaN, [add(a, b) == add(b, a)] is true. *)
Theorem add_commutes a b w :
  fst (add a b w) = fst (add b a w) /\
  is_TypeError (fst (add a b w)) = is_TypeError (fst (add b a w)) /\
  (forall v,
     fst (add a b w) = Return v -> v <> VFloat S754_nan ->
     exists v', fst (add b a w) = Return v' /\ num_eq v v' = Some true).
Proof.
  split; [apply add_comm_result | split].
  - now rewrite add_comm_result.
  - intros v Hv Hnan. exists v. split; [now rewrite <- add_comm_result |].
    destruct (add_returns_a_number a b w v Hv) as [(z & ->) | (f & ->)]; cbn.
    + now rewrite Z.eqb_refl.
    + rewrite SFeqb_refl; [reflexivity |].
      destruct f; try reflexivity. now elim Hnan.
Qed.

Lemma add_commutes_witness :
  exists v', fst (add (VFloat f0_2) (VInt 3) w0) = Return v' /\
             num_eq (VFloat (float_add (float_of_int 3) f0_2)) v' = Some true.
Proof.
  refine (proj2 (proj2 (add_commutes (VInt 3) (VFloat f0_2) w0)) _ eq_refl _).
  discriminate.
Defined.

(** ** C10: the type of the result *)

(** C10: for two integers (booleans included) [add] returns an [int], the
    exact sum; as soon as one argument is a float, whatever [add] returns is
    a [float]; and for two floats it always returns. *)
Theorem add_result_type a b w :
  (forall x y, as_int a = Some x -> as_int b = Some y ->
     fst (add a b w) = Return (VInt (x + y)) /\ type_of (VInt (x + y)) = TInt) /\
  (type_of a = TFloat \/ type_of b = TFloat ->
     forall v, fst (add a b w) = Return v -> type_of v = TFloat) /\
  (type_of a = TFloat -> type_of b = TFloat ->
     exists f, fst (add a b w) = Return (VFloat f)).
Proof.
  split; [| split].
  - intros x y Hx Hy. split; [| reflexivity].
    rewrite add_numbers_result
      by (destruct a; try discriminate; destruct b; try discriminate; reflexivity).
    destruct a; try discriminate; destruct b; try discriminate;
      cbn in *; congruence.
  - intros Hf v Hv.
    destruct (isinstance a numbers) eqn:Ha;
      [destruct (isinstance b numbers) eqn:Hb |];
      try (rewrite add_rejects_result in Hv by auto; discriminate).
    rewrite add_numbers_result in Hv by assumption.
    destruct a; try discriminate; destruct b; try discriminate;
      cbn in Hf; try (destruct Hf; discriminate);
      cbn in Hv;
      try (destruct (int_as_double _); cbn in Hv; try discriminate);
      injection Hv as <-; reflexivity.
  - intros Hfa Hfb.
    destruct a; try discriminate; destruct b; try discriminate.
    eexists. now rewrite add_numbers_result.
Qed.

Lemma add_result_type_witness :
  fst (add (VInt 1) (VInt 2) w0) = Return (VInt 3) /\
  type_of (VFloat (float_add (float_of_int 1) f1_5)) = TFloat /\
  exists f, fst (add (VFloat f0_1) (VFloat f0_2) w0) = Return (VFloat f).
Proof.
  split; [| split].
  - exact (proj1 (proj1 (add_result_type (VInt 1) (VInt 2) w0) 1 2 eq_refl eq_refl)).
  - exact (proj1 (proj2 (add_result_type (VInt 1) (VFloat f1_5) w0))
             (or_intror eq_refl) _ eq_refl).
  - exact (proj2 (proj2 (add_result_type (VFloat f0_1) (VFloat f0_2) w0))
             eq_refl eq_refl).
Defined.

(** * Further properties of [add] *)

Import Compose.

Lemma add_ints a b x y w :
  as_int a = Some x -> as_int b = Some y ->
  add a b w =
  (Return (VInt (x + y)),
   mkWorld (globals w)
     (EvBinaryAdd a b :: EvIsinstance b numbers :: EvIsinstance a numbers :: trace w)).
Proof.
  intros Hx Hy.
  rewrite add_accepts
    by (destruct a; try discriminate; destruct b; try discriminate; reflexivity).
  f_equal.
  destruct a; try discriminate; destruct b; try discriminate;
    cbn in *; congruence.
Qed.

Lemma add_TypeError_iff a b w :
  is_TypeError (fst (add a b w)) = true <->
  isinstance a numbers = false \/ isinstance b numbers = false.
Proof.
  split.
  - intros Herr.
    destruct (isinstance a numbers) eqn:Ha; [| now left].
    destruct (isinstance b numbers) eqn:Hb; [| now right].
    rewrite (add_numbers_result a b w Ha Hb) in Herr.
    destruct (binary_add_numbers a b Ha Hb) as [(_ & v & Hv & _) | (_ & Hr)];
      [rewrite Hv in Herr | rewrite Hr in Herr]; discriminate.
  - intros H. now rewrite (add_rejects_result a b w H).
Qed.

(** X1: whatever [add] returns is an [int] or a [float] -- never a [bool],
    even for two booleans -- so it passes the guard of [add] again: when a
    result is fed back as first argument, only the other argument can make
    the next call raise the guard's [TypeError]. *)
Theorem add_result_passes_guard a b w v :
  fst (add a b w) = Return v ->
  (type_of v = TInt \/ type_of v = TFloat) /\
  isinstance v numbers = true /\
  (forall c w',
     is_TypeError (fst (add v c w')) = true -> isinstance c numbers = false).
Proof.
  intros Hv.
  assert (Hnum : isinstance v numbers = true /\
                 (type_of v = TInt \/ type_of v = TFloat)).
  { destruct (add_returns_a_number a b w v Hv) as [(z & ->) | (f & ->)];
      split; auto. }
  destruct Hnum as (Hnum & Hty). repeat split; try assumption.
  intros c w' Herr. apply add_TypeError_iff in Herr.
  destruct Herr as [Herr | Herr]; congruence.
Qed.

Lemma add_result_passes_guard_witness :
  (type_of (VInt 2) = TInt \/ type_of (VInt 2) = TFloat) /\
  isinstance (VInt 2) numbers = true /\
  (forall c w',
     is_TypeError (fst (add (VInt 2) c w')) = true -> isinstance c numbers = false).
Proof.
  exact (add_result_passes_guard (VBool true) (VBool true) w0 (VInt 2) eq_refl).
Defined.

(** X2: on integers (booleans included) nested calls of [add] associate:
    [add(add(a, b), c)] and [add(a, add(b, c))] both return the exact sum
    of the three.  On floats they need not: 0.1, 0.2, 0.3 give two
    different doubles. *)
Theorem add_associates_on_integers :
  (forall a b c x y z w,
     as_int a = Some x -> as_int b = Some y -> as_int c = Some z ->
     fst (add_left a b c w) = Return (VInt (x + y + z)) /\
     fst (add_right a b c w) = Return (VInt (x + y + z))) /\
  (exists l r,
     fst (add_left (VFloat f0_1) (VFloat f0_2) (VFloat f0_3) w0) = Return (VFloat l) /\
     fst (add_right (VFloat f0_1) (VFloat f0_2) (VFloat f0_3) w0) = Return (VFloat r) /\
     SFeqb l r = false).
Proof.
  split.
  - intros a b c x y z w Hx Hy Hz.
    unfold add_left, add_right, bind.
    rewrite (add_ints a b x y w Hx Hy), (add_ints b c y z w Hy Hz).
    rewrite (add_ints (VInt (x + y)) c (x + y) z) by (assumption || reflexivity).
    rewrite (add_ints a (VInt (y + z)) x (y + z)) by (assumption || reflexivity).
    cbn [fst]. now rewrite Z.add_assoc.
  - do 2 eexists. repeat split; vm_compute; reflexivity.
Qed.

Lemma add_associates_on_integers_witness :
  fst (add_left (VInt 1) (VBool true) (VInt (-5)) w0) = Return (VInt (-3)) /\
  fst (add_right (VInt 1) (VBool true) (VInt (-5)) w0) = Return (VInt (-3)).
Proof.
  exact (proj1 add_associates_on_integers (VInt 1) (VBool true) (VInt (-5))
           1 1 (-5) w0 eq_refl eq_refl eq_refl).
Defined.

(** X3: for arguments that are [None], a [bool], an [int], a [float], a
    [str], a [list] or a [dict]: what the guard changes with respect to a
    bare [a + b].  On two numbers nothing.  Where the guard rejects, [+]
    would have raised a [TypeError] of its own too -- except on two strings
    or two lists, which [+] would have concatenated. *)
Theorem add_departs_from_plus_on_concatenation a b w :
  (isinstance a numbers = true -> isinstance b numbers = true ->
   fst (add a b w) = binary_add a b) /\
  (isinstance a numbers = false \/ isinstance b numbers = false ->
   fst (add a b w) = Raise (TypeError add_message) /\
   (concatenable a b = true -> returns (binary_add a b) = true) /\
   (concatenable a b = false -> is_TypeError (binary_add a b) = true)).
Proof.
  split.
  - apply add_numbers_result.
  - intros H. split; [now apply add_rejects_result |].
    split; intros Hc.
    + destruct a; try discriminate; destruct b; try discriminate; reflexivity.
    + destruct a, b; try discriminate; try reflexivity;
        destruct H; discriminate.
Qed.

Lemma add_departs_from_plus_on_concatenation_witness :
  fst (add (VStr "1") (VStr "2") w0) = Raise (TypeError add_message) /\
  returns (binary_add (VStr "1") (VStr "2")) = true.
Proof.
  destruct (proj2 (add_departs_from_plus_on_concatenation (VStr "1") (VStr "2") w0)
              (or_introl eq_refl)) as (Hraise & Hconcat & _).
  split; [exact Hraise | exact (Hconcat eq_refl)].
Defined.

(** X4: the integer 0 is neutral up to [==]: for every number [a] other
    than NaN, [add(a, 0)] and [add(0, a)] return the same value, and that
    value [== a] (a boolean comes back as the integer it stands for, and
    -0.0 as 0.0). *)
Theorem add_zero_is_neutral a w :
  isinstance a numbers = true -> a <> VFloat S754_nan ->
  exists v,
    fst (add a (VInt 0) w) = Return v /\
    fst (add (VInt 0) a w) = Return v /\
    num_eq v a = Some true.
Proof.
  intros Ha Hnan.
  rewrite !add_numbers_result by (assumption || reflexivity).
  destruct a as [| b | z | f | | |]; try discriminate.
  - exists (VInt (Z.b2z b)). cbn. rewrite Z.add_0_r, Z.eqb_refl. auto.
  - exists (VInt z). cbn. rewrite Z.add_0_r, Z.eqb_refl. auto.
  - destruct f as [s | s | | s m e]; try (now elim Hnan).
    + exists (VFloat (S754_zero false)). destruct s; repeat split.
    + exists (VFloat (S754_infinity s)). destruct s; repeat split.
    + exists (VFloat (S754_finite s m e)).
      split; [reflexivity | split; [reflexivity |]].
      cbn [num_eq]. now rewrite SFeqb_refl.
Qed.

Lemma add_zero_is_neutral_witness :
  exists v,
    fst (add (VFloat (SFopp f0_0)) (VInt 0) w0) = Return v /\
    fst (add (VInt 0) (VFloat (SFopp f0_0)) w0) = Return v /\
    num_eq v (VFloat (SFopp f0_0)) = Some true.
Proof.
  refine (add_zero_is_neutral (VFloat (SFopp f0_0)) w0 eq_refl _).
  discriminate.
Defined.

Lemma float_add_opp_finite s m e :
  float_add (S754_finite s m e) (SFopp (S754_finite s m e)) = S754_zero false.
Proof.
  unfold float_add. cbn [SFopp SFadd].
  rewrite Z.min_id. unfold shl_align. rewrite Z.sub_diag. cbn [fst].
  destruct s; cbn [negb cond_Zopp]; rewrite ?Z.add_opp_diag_l, ?Z.add_opp_diag_r;
    reflexivity.
Qed.

(** X5: adding a number and its negation.  For an integer the result is
    the integer 0; for a finite float it is +0.0 exactly, whatever the
    magnitude; for an infinity or NaN it is NaN. *)
Theorem add_negation_cancels a w :
  isinstance a numbers = true ->
  exists n,
    unary_neg a = Return n /\
    fst (add a n w) =
    Return match a with
           | VFloat (S754_infinity _) | VFloat S754_nan => VFloat S754_nan
           | VFloat _ => VFloat (S754_zero false)
           | _ => VInt 0
           end.
Proof.
  intros Ha.
  destruct a as [| b | z | f | | |]; try discriminate.
  - exists (VInt (- Z.b2z b)). split; [reflexivity |].
    rewrite add_numbers_result by reflexivity. cbn. now rewrite Z.add_opp_diag_r.
  - exists (VInt (- z)). split; [reflexivity |].
    rewrite add_numbers_result by reflexivity. cbn. now rewrite Z.add_opp_diag_r.
  - exists (VFloat (SFopp f)). split; [reflexivity |].
    rewrite add_numbers_result by reflexivity. cbn [binary_add].
    destruct f as [s | s | | s m e].
    + destruct s; reflexivity.
    + destruct s; reflexivity.
    + reflexivity.
    + now rewrite float_add_opp_finite.
Qed.

Lemma add_negation_cancels_witness :
  exists n,
    unary_neg (VFloat f0_1) = Return n /\
    fst (add (VFloat f0_1) n w0) = Return (VFloat (S754_zero false)).
Proof.
  exact (add_negation_cancels (VFloat f0_1) w0 eq_refl).
Defined.

(** X6: the guard short-circuits: when the first argument is not a number
    the second one is never looked at -- the whole run (outcome, state and
    operations evaluated) is the same whatever the second argument is. *)
Theorem add_first_rejection_ignores_second a b b' w :
  isinstance a numbers = false ->
  add a b w = add a b' w /\
  trace (snd (add a b w)) = EvIsinstance a numbers :: trace w.
Proof.
  intros Ha. rewrite !add_rejects_first by assumption. split; reflexivity.
Qed.

Lemma add_first_rejection_ignores_second_witness :
  add VNone (VInt 1) w0 = add VNone (VList [VNone]) w0 /\
  trace (snd (add VNone (VInt 1) w0)) = [EvIsinstance VNone numbers].
Proof.
  exact (add_first_rejection_ignores_second VNone (VInt 1) (VList [VNone]) w0 eq_refl).
Defined.

(** * The test suites as callers *)

Lemma assertRaises_TypeError_pass {A} (body : M A) w :
  is_TypeError (fst (body w)) = true ->
  assertRaises_TypeError body w = (TVal tt, snd (body w)).
Proof.
  unfold assertRaises_TypeError.
  destruct (body w) as [[v | [msg | msg]] w']; cbn; try discriminate.
  reflexivity.
Qed.

(** X7: every test method of [TestAdd] passes against [add], from any
    starting state, and leaves the module state as it found it. *)
Theorem TestAdd_passes_on_add w :
  Forall (fun t : T unit => fst (t w) = TVal tt /\ globals (snd (t w)) = globals w)
         (TestAdd.all_tests add).
Proof.
  repeat constructor; vm_compute; reflexivity.
Qed.

(** X8: [test_errors_on_non_numbers] passes against every implementation
    that raises a [TypeError] whenever one of its arguments is not a
    number, in whatever state it is called. *)
Theorem test_errors_accepts_every_guarded_add
    (impl : value -> value -> M value) (w : world) :
  (forall a b w',
     isinstance a numbers = false \/ isinstance b numbers = false ->
     is_TypeError (fst (impl a b w')) = true) ->
  passes (TestAdd.test_errors_on_non_numbers impl) w = true.
Proof.
  intros Hguard.
  unfold passes, TestAdd.test_errors_on_non_numbers, TestAdd.bad_values.
  cbn [for_each]. unfold tbind.
  repeat (rewrite assertRaises_TypeError_pass
            by (apply Hguard; solve [left; reflexivity | right; reflexivity])).
  reflexivity.
Qed.

Lemma test_errors_accepts_every_guarded_add_witness :
  passes (TestAdd.test_errors_on_non_numbers add) w0 = true.
Proof.
  apply test_errors_accepts_every_guarded_add.
  intros a b w' H. now apply add_TypeError_iff.
Defined.

(** X9: the guard is what [test_errors_on_non_numbers] is there for: a
    bare [return a + b] passes the three other tests of [TestAdd] and fails
    this one, on its first pair -- of the four bad pairs, [+] rejects only
    the second and the fourth by itself. *)
Theorem bare_add_fails_only_the_rejection_test w :
  passes (TestAdd.test_returns_number bare_add) w = true /\
  passes (TestAdd.test_works_with_ints bare_add) w = true /\
  passes (TestAdd.test_works_with_floats bare_add) w = true /\
  fst (TestAdd.test_errors_on_non_numbers bare_add w) = TFail "assertRaises" /\
  map (fun '(first, second) => is_TypeError (binary_add first second))
      TestAdd.bad_values = [false; true; false; true].
Proof.
  repeat split; vm_compute; reflexivity.
Qed.

(** X10: [TestSquare] cannot tell whether [square] checks its argument: a
    bare [return x * x] passes the test of the first version and both
    tests of the second, because [*] already raises a [TypeError] for a
    string, a list or a dict times itself. *)
Theorem bare_square_passes_TestSquare w :
  passes (TestSquare.v1_test_correct_values bare_square) w = true /\
  passes (TestSquare.test_correct_values bare_square) w = true /\
  passes (TestSquare.test_non_numbers bare_square) w = true /\
  (forall s, is_TypeError (binary_mul (VStr s) (VStr s)) = true) /\
  (forall l, is_TypeError (binary_mul (VList l) (VList l)) = true) /\
  (forall d, is_TypeError (binary_mul (VDict d) (VDict d)) = true).
Proof.
  repeat split; vm_compute; reflexivity.
Qed.

(** * [process_person]: what [finally] does to a [return] *)

Import Finally.
Local Open Scope string_scope.

Ltac run_try :=
  cbv beta iota delta
    [Person2.process_person Person4.process_person call seq try_except
     try_finally return_ pure handler].

(** X11: with [return None] in the [finally] clause, [process_person] of
    person4.py returns [None] for every object whatsoever: the identifier
    that [get_id] returned is discarded, and an exception -- of any class,
    raised by [get_id] or by the handler itself -- never leaves the
    function. *)
Theorem finally_return_overrides_everything (person : object) (out : stdout) :
  fst (Person4.process_person person out) = inl VNone.
Proof.
  run_try.
  destruct (call_get_id person out) as [[v | e] out']; [reflexivity |].
  destruct (derives_Exception e); [| reflexivity].
  destruct (getattr person "first_name"); [| reflexivity].
  destruct (getattr person "last_name"); reflexivity.
Qed.

(** X12: in person2.py, when [get_id] returns, [process_person] returns
    that very value and prints nothing of its own. *)
Theorem process_person_returns_the_id (person : object) (out out' : stdout) v :
  call_get_id person out = (inl v, out') ->
  Person2.process_person person out = (inl v, out').
Proof. intros Hid. run_try. rewrite Hid. reflexivity. Qed.

Lemma process_person_returns_the_id_witness :
  Person2.process_person (Person2.Person "Ada" "Lovelace") [] =
  (inl (VStr "abc123"), []).
Proof.
  exact (process_person_returns_the_id (Person2.Person "Ada" "Lovelace")
           [] [] (VStr "abc123") eq_refl).
Defined.

(** X13: in person2.py, when [get_id] raises an exception derived from
    [Exception] and the person has both name attributes, the exception is
    swallowed: one line naming the person and the error is printed after
    whatever [get_id] had printed, and [None] is returned. *)
Theorem process_person_reports_and_returns_None
    (person : object) (out out' : stdout) (e : exc) (first last : string) :
  call_get_id person out = (inr e, out') ->
  derives_Exception e = true ->
  getattr person "first_name" = inl first ->
  getattr person "last_name" = inl last ->
  Person2.process_person person out =
  (inl VNone, (out' ++ [error_line first last e])%list).
Proof.
  intros Hid He Hf Hl. run_try. rewrite Hid, He, Hf, Hl. reflexivity.
Qed.

Lemma process_person_reports_and_returns_None_witness :
  Person2.process_person
    (mkObject "Person" [("first_name", "Ada"); ("last_name", "Lovelace")] None) [] =
  (inl VNone,
   ["Error calling do_something for Person Ada Lovelace: 'Person' object has no attribute 'get_id'"]).
Proof.
  exact (process_person_reports_and_returns_None
           (mkObject "Person" [("first_name", "Ada"); ("last_name", "Lovelace")] None)
           [] [] _ "Ada" "Lovelace" eq_refl eq_refl eq_refl eq_refl).
Defined.

(** X14: what person2.py lets through, printing nothing: an exception of
    [get_id] that does not derive from [Exception] is raised unchanged;
    and when a name attribute is missing, the handler's own
    [AttributeError] is raised in place of the exception it was
    handling. *)
Theorem process_person_lets_through
    (person : object) (out out' : stdout) (e : exc) :
  call_get_id person out = (inr e, out') ->
  (derives_Exception e = false ->
   Person2.process_person person out = (inr e, out')) /\
  (derives_Exception e = true ->
   forall name,
     (getattr person "first_name" = inr (AttributeError person name) \/
      (exists first, getattr person "first_name" = inl first) /\
      getattr person "last_name" = inr (AttributeError person name)) ->
     Person2.process_person person out = (inr (AttributeError person name), out')).
Proof.
  intros Hid. split; intros He.
  - run_try. rewrite Hid, He. reflexivity.
  - intros name [Hf | ((first & Hf) & Hl)]; run_try; rewrite Hid, He, Hf, ?Hl;
      reflexivity.
Qed.

Lemma process_person_lets_through_witness :
  Person2.process_person
    (mkObject "Person" [("first_name", "Ada"); ("last_name", "Lovelace")]
       (Some (fun out => (inr (mkExc "KeyboardInterrupt" false ""), out)))) [] =
  (inr (mkExc "KeyboardInterrupt" false ""), []).
Proof.
  exact (proj1 (process_person_lets_through
                  (mkObject "Person" [("first_name", "Ada"); ("last_name", "Lovelace")]
                     (Some (fun out => (inr (mkExc "KeyboardInterrupt" false ""), out))))
                  [] [] _ eq_refl) eq_refl).
Defined.

(** X15: the two files on their own [Person] class, whatever the names:
    person2.py returns the identifier ["abc123"], person4.py returns
    [None] although [get_id] returned the same identifier; neither prints
    anything. *)
Theorem process_person_on_Person (first last name : string) (out : stdout) :
  Person2.process_person (Person2.Person first last) out = (inl (VStr "abc123"), out) /\
  Person4.process_person (Person4.Person name) out = (inl VNone, out).
Proof. split; reflexivity. Qed.

(** X16: in person4.py the message of the handler is out of reach for an
    object without a [first_name] -- such as an instance of the file's own
    [Person], which only has [name]: whatever [get_id] does, nothing is
    printed beyond what [get_id] printed itself, and the
    [AttributeError] of the handler is swallowed with the rest. *)
Theorem person4_handler_never_prints (person : object) (out : stdout) :
  lookup "first_name" (attributes person) = None ->
  Person4.process_person person out = (inl VNone, snd (call_get_id person out)).
Proof.
  intros Hmissing. run_try. unfold getattr. rewrite Hmissing.
  destruct (call_get_id person out) as [[v | e] out']; [reflexivity |].
  destruct (derives_Exception e); reflexivity.
Qed.

Lemma person4_handler_never_prints_witness :
  Person4.process_person
    (mkObject "Person" [("name", "Ada")]
       (Some (fun out => (inr (mkExc "ConnectionError" true "timed out"), out))))
    ["..."] =
  (inl VNone, ["..."]).
Proof.
  exact (person4_handler_never_prints
           (mkObject "Person" [("name", "Ada")]
              (Some (fun out => (inr (mkExc "ConnectionError" true "timed out"), out))))
           ["..."] eq_refl).
Defined.

Local Close Scope string_scope.

(** * [ranking_to_individual_games] *)

Import Ranking.
Local Open Scope nat_scope.

Lemma games_of_app p later data :
  games_of p later data = data ++ map (fun q => mkGame p q 1) later.
Proof.
  unfold games_of. revert data.
  induction later as [| q later IH]; intros data; cbn.
  - now rewrite app_nil_r.
  - rewrite IH. unfold concat_row. now rewrite <- app_assoc.
Qed.

Lemma index_first p l a :
  nth_error l a = Some p ->
  exists k, index p l = Some k /\ k <= a /\ nth_error l k = Some p.
Proof.
  revert a. induction l as [| x l IH]; intros a Ha.
  - destruct a; discriminate.
  - cbn [index]. destruct (String.eqb x p) eqn:Hx.
    + apply String.eqb_eq in Hx. subst x.
      exists 0. repeat split. apply Nat.le_0_l.
    + destruct a as [| a].
      * cbn in Ha. injection Ha as ->. rewrite String.eqb_refl in Hx. discriminate.
      * destruct (IH a Ha) as (k & Hk & Hle & Hnth).
        exists (S k). rewrite Hk. repeat split; [| exact Hnth].
        now apply le_n_S.
Qed.

Lemma index_fresh p pre later :
  ~ In p pre -> index p (pre ++ p :: later) = Some (List.length pre).
Proof.
  induction pre as [| x pre IH]; intros Hp; cbn.
  - now rewrite String.eqb_refl.
  - destruct (String.eqb x p) eqn:Hx.
    + apply String.eqb_eq in Hx. subst x. elim Hp. now left.
    + rewrite IH; [reflexivity |]. intros Hin. apply Hp. now right.
Qed.

Lemma run_outer_loop ranking later data :
  (forall p, In p later -> In p ranking) ->
  fold_left
    (fun acc player_i =>
       match acc with
       | None => None
       | Some data =>
           match index player_i ranking with
           | None => None
           | Some k => Some (games_of player_i (skipn (S k) ranking) data)
           end
       end)
    later (Some data) =
  Some (data ++ flat_map (games_from ranking) later).
Proof.
  revert data. induction later as [| p later IH]; intros data Hin; cbn [fold_left flat_map].
  - now rewrite app_nil_r.
  - destruct (In_nth_error ranking p (Hin p (or_introl eq_refl))) as (a & Ha).
    destruct (index_first p ranking a Ha) as (k & Hk & _ & _).
    assert (Hp : games_from ranking p =
                 map (fun q => mkGame p q 1) (skipn (S k) ranking))
      by (unfold games_from; now rewrite Hk).
    rewrite Hk, games_of_app, IH, Hp.
    + now rewrite <- app_assoc.
    + intros q Hq. apply Hin. now right.
Qed.

Lemma ranking_games_eq ranking :
  ranking_to_individual_games ranking = Some (flat_map (games_from ranking) ranking).
Proof.
  unfold ranking_to_individual_games. now rewrite run_outer_loop.
Qed.

Lemma games_from_fresh pre p later :
  ~ In p pre ->
  games_from (pre ++ p :: later) p = map (fun q => mkGame p q 1) later.
Proof.
  intros Hp. unfold games_from. rewrite index_fresh by assumption.
  f_equal. rewrite skipn_app, skipn_all2 by apply Nat.le_succ_diag_r.
  replace (S (List.length pre) - List.length pre) with 1
    by (symmetry; rewrite Nat.sub_succ_l, Nat.sub_diag; auto).
  reflexivity.
Qed.

Lemma games_of_distinct pre later :
  NoDup (pre ++ later) ->
  flat_map (games_from (pre ++ later)) later = round_robin later.
Proof.
  revert pre. induction later as [| p later IH]; intros pre Hnd; [reflexivity |].
  cbn [flat_map round_robin].
  rewrite games_from_fresh.
  - f_equal.
    replace (pre ++ p :: later) with ((pre ++ [p]) ++ later) in *
      by (now rewrite <- app_assoc).
    now apply IH.
  - intros Hin. apply NoDup_remove_2 in Hnd. apply Hnd, in_or_app. now left.
Qed.

Lemma ranking_games_distinct ranking :
  NoDup ranking ->
  ranking_to_individual_games ranking = Some (round_robin ranking).
Proof.
  intros Hnd. rewrite ranking_games_eq.
  apply f_equal. exact (games_of_distinct [] ranking Hnd).
Qed.

Lemma round_robin_size l :
  2 * List.length (round_robin l) + List.length l = List.length l * List.length l.
Proof.
  induction l as [| p l IH]; [reflexivity |].
  cbn [round_robin List.length]. rewrite length_app, length_map. lia.
Qed.

Lemma index_nth p l k : index p l = Some k -> nth_error l k = Some p.
Proof.
  revert k. induction l as [| x l IH]; intros k; cbn [index]; [discriminate |].
  destruct (String.eqb x p) eqn:Hx.
  - apply String.eqb_eq in Hx. subst x. now intros [= <-].
  - destruct (index p l) as [k' |]; [| discriminate].
    intros [= <-]. now apply IH.
Qed.

Lemma games_from_In ranking p g :
  In g (games_from ranking p) ->
  result g = 1%Z /\
  exists a b,
    a < b /\ nth_error ranking a = Some (player_i g) /\
    nth_error ranking b = Some (player_j g).
Proof.
  unfold games_from. destruct (index p ranking) as [k |] eqn:Hk; [| intros []].
  intros Hg. apply in_map_iff in Hg. destruct Hg as (q & <- & Hq).
  split; [reflexivity |].
  destruct (In_nth_error _ _ Hq) as (i & Hi).
  rewrite nth_error_skipn in Hi.
  exists k, (S k + i). cbn [player_i player_j].
  repeat split; [lia | now apply index_nth | exact Hi].
Qed.

Lemma round_robin_In l p q r :
  In (mkGame p q r) (round_robin l) <->
  r = 1%Z /\
  exists a b, a < b /\ nth_error l a = Some p /\ nth_error l b = Some q.
Proof.
  induction l as [| x l IH]; cbn [round_robin].
  - split; [intros [] |]. intros (_ & a & b & _ & Ha & _). destruct a; discriminate.
  - rewrite in_app_iff, in_map_iff, IH. split.
    + intros [(q' & Heq & Hq) | (Hr & a & b & Hab & Ha & Hb)].
      * injection Heq as <- <- <-. split; [reflexivity |].
        destruct (In_nth_error _ _ Hq) as (i & Hi).
        exists 0, (S i). repeat split; [lia | exact Hi].
      * split; [exact Hr |]. exists (S a), (S b). repeat split; [lia | | ]; assumption.
    + intros (Hr & a & b & Hab & Ha & Hb).
      destruct b as [| b]; [lia |]. cbn in Hb.
      destruct a as [| a].
      * cbn in Ha. injection Ha as ->. left. exists q. subst r.
        split; [reflexivity | now apply nth_error_In with b].
      * right. split; [exact Hr |]. exists a, b. repeat split; [lia | | ]; assumption.
Qed.

Lemma round_robin_NoDup l : NoDup l -> NoDup (round_robin l).
Proof.
  induction 1 as [| p l Hp Hnd IH]; cbn [round_robin]; [constructor |].
  apply NoDup_app.
  - apply NoDup_map_NoDup_ForallPairs; [| exact Hnd].
    intros x y _ _ Heq. now injection Heq.
  - exact IH.
  - intros [p' q r] Hin Hin'. apply in_map_iff in Hin.
    destruct Hin as (q' & Heq & _). injection Heq as <- <- <-.
    apply round_robin_In in Hin'. destruct Hin' as (_ & a & _ & _ & Ha & _).
    apply Hp. now apply nth_error_In with a.
Qed.

(** X17: [ranking_to_individual_games] never fails -- the [index] lookup
    always finds the player it is given -- and every row it produces has
    result 1 and pairs a player with one listed further down the
    ranking. *)
Theorem ranking_games_follow_the_ranking (ranking : list string) :
  exists data,
    ranking_to_individual_games ranking = Some data /\
    forall g,
      In g data ->
      result g = 1%Z /\
      exists a b,
        a < b /\ nth_error ranking a = Some (player_i g) /\
        nth_error ranking b = Some (player_j g).
Proof.
  exists (flat_map (games_from ranking) ranking).
  split; [apply ranking_games_eq |].
  intros g Hg. apply in_flat_map in Hg. destruct Hg as (p & _ & Hg).
  now apply games_from_In with p.
Qed.

Lemma ranking_games_follow_the_ranking_witness :
  exists data,
    ranking_to_individual_games ["C"; "A"; "B"]%string = Some data /\
    forall g, In g data -> result g = 1%Z.
Proof.
  destruct (ranking_games_follow_the_ranking ["C"; "A"; "B"]%string)
    as (data & Hdata & Hrows).
  exists data. split; [exact Hdata |].
  intros g Hg. exact (proj1 (Hrows g Hg)).
Defined.

(** X18: a ranking of n distinct players yields n(n-1)/2 games; none for
    an empty ranking or a single player. *)
Theorem ranking_games_count (ranking : list string) :
  NoDup ranking ->
  exists data,
    ranking_to_individual_games ranking = Some data /\
    2 * List.length data = List.length ranking * (List.length ranking - 1).
Proof.
  intros Hnd. exists (round_robin ranking).
  split; [now apply ranking_games_distinct |].
  pose proof (round_robin_size ranking) as Hsize.
  destruct (List.length ranking) as [| n]; [lia |].
  rewrite Nat.sub_succ, Nat.sub_0_r. lia.
Qed.

Lemma ranking_games_count_witness :
  exists data,
    ranking_to_individual_games ["B"; "C"; "A"]%string = Some data /\
    2 * List.length data = 3 * 2.
Proof.
  refine (ranking_games_count ["B"; "C"; "A"]%string _).
  repeat constructor; cbn; intuition discriminate.
Defined.

(** X19: for distinct players the games are exactly the pairs "higher
    ranked, lower ranked": a row (p, q, r) is present if and only if r is 1
    and p is listed before q; no row occurs twice, nobody plays
    themselves, and a pair never appears in both orders. *)
Theorem ranking_games_are_the_ordered_pairs (ranking : list string) :
  NoDup ranking ->
  exists data,
    ranking_to_individual_games ranking = Some data /\
    NoDup data /\
    (forall p q r,
       In (mkGame p q r) data <->
       r = 1%Z /\
       exists a b, a < b /\ nth_error ranking a = Some p /\ nth_error ranking b = Some q) /\
    (forall p q r,
       In (mkGame p q r) data -> p <> q /\ ~ In (mkGame q p r) data).
Proof.
  intros Hnd. exists (round_robin ranking).
  split; [now apply ranking_games_distinct |].
  split; [now apply round_robin_NoDup |].
  split; [intros p q r; apply round_robin_In |].
  intros p q r Hin. apply round_robin_In in Hin.
  destruct Hin as (_ & a & b & Hab & Ha & Hb).
  pose proof (proj1 (NoDup_nth_error ranking) Hnd) as Huniq.
  assert (Hlen : forall i x, nth_error ranking i = Some x -> i < List.length ranking).
  { intros i x Hi. apply nth_error_Some. congruence. }
  split.
  - intros ->. assert (a = b) by (apply Huniq; [eauto | congruence]). lia.
  - intros Hin'. apply round_robin_In in Hin'.
    destruct Hin' as (_ & a' & b' & Hab' & Ha' & Hb').
    assert (a = b') by (apply Huniq; [eauto | congruence]).
    assert (b = a') by (apply Huniq; [eauto | congruence]).
    lia.
Qed.

Lemma ranking_games_are_the_ordered_pairs_witness :
  exists data,
    ranking_to_individual_games ["B"; "A"]%string = Some data /\
    In (mkGame "B" "A" 1) data /\ ~ In (mkGame "A" "B" 1) data.
Proof.
  assert (Hnd : NoDup ["B"; "A"]%string)
    by (repeat constructor; cbn; intuition discriminate).
  destruct (ranking_games_are_the_ordered_pairs ["B"; "A"]%string Hnd)
    as (data & Hdata & _ & Hiff & Hanti).
  exists data. split; [exact Hdata |].
  assert (Hin : In (mkGame "B" "A" 1) data).
  { apply Hiff. split; [reflexivity |]. exists 0, 1. repeat split. lia. }
  split; [exact Hin | exact (proj2 (Hanti _ _ _ Hin))].
Defined.

(** X20: the lookup by name takes the first occurrence, so a name listed
    twice is paired with itself: the frame then holds a game of that
    player against themselves. *)
Theorem repeated_player_plays_themselves (ranking : list string) p a b :
  a < b ->
  nth_error ranking a = Some p -> nth_error ranking b = Some p ->
  exists data,
    ranking_to_individual_games ranking = Some data /\
    In (mkGame p p 1) data.
Proof.
  intros Hab Ha Hb.
  exists (flat_map (games_from ranking) ranking).
  split; [apply ranking_games_eq |].
  apply in_flat_map. exists p. split; [now apply nth_error_In with a |].
  destruct (index_first p ranking a Ha) as (k & Hk & Hle & _).
  unfold games_from. rewrite Hk. apply in_map_iff. exists p.
  split; [reflexivity |].
  apply nth_error_In with (b - S k).
  rewrite nth_error_skipn. now replace (S k + (b - S k)) with b by lia.
Qed.

Lemma repeated_player_plays_themselves_witness :
  exists data,
    ranking_to_individual_games ["A"; "B"; "A"]%string = Some data /\
    In (mkGame "A" "A" 1) data.
Proof.
  exact (repeated_player_plays_themselves ["A"; "B"; "A"]%string "A" 0 2
           (le_S _ _ (le_n _)) eq_refl eq_refl).
Defined.

(** * [calculate_sample_variance] *)

Import Variance.
Local Open Scope string_scope.

Section SampleVariance.

Variable libm_pow_2 : spec_float -> spec_float.

Lemma sum_error_stays (g : value -> value -> R value) items e :
  fold_left (fun acc x => rbind acc (g x)) items (inr e) = inr e.
Proof. induction items as [| x items IH]; [reflexivity | exact IH]. Qed.

Lemma plus_number_closed a b :
  isinstance a numbers = true -> isinstance b numbers = true ->
  match of_outcome (binary_add a b) with
  | inl v => isinstance v numbers = true
  | inr e => exc_class e = "OverflowError"
  end.
Proof.
  intros Ha Hb.
  destruct (binary_add_numbers a b Ha Hb) as [(_ & v & -> & Hs) | (_ & ->)];
    [| reflexivity].
  destruct Hs; reflexivity.
Qed.

Lemma plus_non_number a b :
  isinstance a numbers = true -> isinstance b numbers = false ->
  exists e, of_outcome (binary_add a b) = inr e /\ exc_class e = "TypeError".
Proof.
  intros Ha Hb.
  destruct a; try discriminate; destruct b; try discriminate;
    eexists; split; reflexivity.
Qed.

Lemma minus_float_closed a y :
  isinstance a numbers = true ->
  match of_outcome (binary_sub a (VFloat y)) with
  | inl v => exists f, v = VFloat f
  | inr e => exc_class e = "OverflowError"
  end.
Proof.
  intros Ha. destruct a as [| b | z | x | | |]; try discriminate; cbn.
  - destruct (int_as_double_cases (Z.b2z b)) as [(f & ->) | ->]; cbn; eauto.
  - destruct (int_as_double_cases z) as [(f & ->) | ->]; cbn; eauto.
  - eauto.
Qed.

Lemma int_true_divide_closed a b :
  match int_true_divide a b with
  | inl _ => True
  | inr e => exc_class e = "ZeroDivisionError" \/ exc_class e = "OverflowError"
  end.
Proof.
  unfold int_true_divide.
  destruct (b =? 0)%Z; [now left |].
  destruct (a =? 0)%Z; [exact I |].
  destruct (SFdiv_core_binary prec emax (Z.abs a) 0 (Z.abs b) 0) as [[q e] l].
  destruct (binary_round_aux prec emax _ q e l); try exact I. now right.
Qed.

Lemma true_div_closed a b :
  isinstance a numbers = true -> isinstance b numbers = true ->
  match true_div a b with
  | inl v => exists f, v = VFloat f
  | inr e => exc_class e = "ZeroDivisionError" \/ exc_class e = "OverflowError"
  end.
Proof.
  assert (Hfloat : forall x y,
             match rbind (float_true_divide x y) (fun q => inl (VFloat q)) with
             | inl v => exists f, v = VFloat f
             | inr e => exc_class e = "ZeroDivisionError" \/
                        exc_class e = "OverflowError"
             end).
  { intros x y. unfold float_true_divide.
    destruct (float_is_zero y); cbn; [now left | eauto]. }
  assert (Hconv : forall n (k : spec_float -> R value),
             (forall y, match k y with
                        | inl v => exists f, v = VFloat f
                        | inr e => exc_class e = "ZeroDivisionError" \/
                                   exc_class e = "OverflowError"
                        end) ->
             match rbind (of_outcome (int_as_double n)) k with
             | inl v => exists f, v = VFloat f
             | inr e => exc_class e = "ZeroDivisionError" \/
                        exc_class e = "OverflowError"
             end).
  { intros n k Hk.
    destruct (int_as_double_cases n) as [(f & ->) | ->]; cbn; [apply Hk | now right]. }
  assert (Hint : forall x y,
             match rbind (int_true_divide x y) (fun q => inl (VFloat q)) with
             | inl v => exists f, v = VFloat f
             | inr e => exc_class e = "ZeroDivisionError" \/
                        exc_class e = "OverflowError"
             end).
  { intros x y. pose proof (int_true_divide_closed x y) as H.
    destruct (int_true_divide x y); cbn; eauto. }
  intros Ha Hb.
  destruct a; try discriminate; destruct b; try discriminate; cbn [true_div as_int];
    solve [apply Hint | apply Hfloat
          | apply Hconv; intros; apply Hfloat ].
Qed.

Lemma true_div_by_zero f :
  exists e, true_div (VFloat f) (VInt 0) = inr e /\
            exc_class e = "ZeroDivisionError".
Proof. eexists. split; reflexivity. Qed.

Lemma pow_2_closed d :
  match pow_2 libm_pow_2 (VFloat d) with
  | inl v => exists f, v = VFloat f
  | inr e => exc_class e = "OverflowError"
  end.
Proof.
  cbn [pow_2]. unfold float_pow_2.
  destruct d as [s | s | | s m e]; cbn [rbind];
    try (eexists; reflexivity).
  destruct (SFeqb (S754_finite false m e) f1_0); cbn [rbind];
    [eexists; reflexivity |].
  destruct (float_is_inf (libm_pow_2 (S754_finite false m e))); cbn [rbind];
    [reflexivity | eexists; reflexivity].
Qed.

Lemma sum_meets_non_number items :
  forall acc x,
    isinstance acc numbers = true ->
    In x items -> isinstance x numbers = false ->
    fails_with
      (fold_left
         (fun acc x =>
            rbind acc (fun total => of_outcome (binary_add total x)))
         items (inl acc))
      ["TypeError"; "OverflowError"].
Proof.
  induction items as [| y items IH]; intros acc x Hacc Hin Hx; [destruct Hin |].
  cbn [fold_left].
  change (rbind (inl acc) (fun total => of_outcome (binary_add total y)))
    with (of_outcome (binary_add acc y)).
  destruct (isinstance y numbers) eqn:Hy.
  - pose proof (plus_number_closed acc y Hacc Hy) as Hstep.
    destruct (of_outcome (binary_add acc y)) as [v | e].
    + destruct Hin as [-> | Hin]; [congruence |]. now apply IH with x.
    + rewrite (sum_error_stays
                 (fun x total => of_outcome (binary_add total x))).
      exists e. split; [reflexivity |].
      rewrite Hstep. now right; left.
  - destruct (plus_non_number acc y Hacc Hy) as (e & -> & He).
    rewrite (sum_error_stays
               (fun x total => of_outcome (binary_add total x))).
    exists e. split; [reflexivity |].
    rewrite He. now left.
Qed.

(** X21: the sample variance needs two observations.  For the empty list
    the call raises [ZeroDivisionError] at the mean; for a single number
    it never returns either: it raises [ZeroDivisionError] at the final
    division by [n - 1], unless the arithmetic before it overflowed. *)
Theorem variance_needs_two_numbers :
  fails_with (calculate_sample_variance libm_pow_2 []) ["ZeroDivisionError"] /\
  forall x,
    isinstance x numbers = true ->
    fails_with (calculate_sample_variance libm_pow_2 [x])
               ["ZeroDivisionError"; "OverflowError"].
Proof.
  split.
  - eexists. split; [reflexivity | now left].
  - intros x Hx.
    assert (Hok : forall e : exc,
               exc_class e = "ZeroDivisionError" \/ exc_class e = "OverflowError" ->
               In (exc_class e) ["ZeroDivisionError"; "OverflowError"]).
    { intros e [-> | ->]; cbn; auto. }
    unfold calculate_sample_variance, sum, sum_map. cbn [List.length fold_left rbind].
    pose proof (plus_number_closed (VInt 0) x eq_refl Hx) as Hsum.
    destruct (of_outcome (binary_add (VInt 0) x)) as [total | e];
      [| exists e; split; [reflexivity | apply Hok; now right]].
    cbn [rbind].
    pose proof (true_div_closed total (VInt (Z.of_nat 1)) Hsum eq_refl) as Hmean.
    destruct (true_div total (VInt (Z.of_nat 1))) as [x_bar | e];
      [| exists e; split; [reflexivity | now apply Hok]].
    destruct Hmean as (m & ->). cbn [rbind].
    pose proof (minus_float_closed x m Hx) as Hdiff.
    destruct (of_outcome (binary_sub x (VFloat m))) as [d | e];
      [| exists e; split; [reflexivity | apply Hok; now right]].
    destruct Hdiff as (d' & ->). cbn [rbind].
    pose proof (pow_2_closed d') as Hsq.
    destruct (pow_2 libm_pow_2 (VFloat d')) as [sq | e];
      [| exists e; split; [reflexivity | apply Hok; now right]].
    destruct Hsq as (sq' & ->). cbn [rbind].
    pose proof (plus_number_closed (VInt 0) (VFloat sq') eq_refl eq_refl) as Hacc.
    destruct (of_outcome (binary_add (VInt 0) (VFloat sq'))) as [squares | e] eqn:Hs;
      [| exists e; split; [reflexivity | apply Hok; now right]].
    assert (exists s, squares = VFloat s) as (s & ->).
    { cbn in Hs. injection Hs as <-. eauto. }
    cbn [rbind of_outcome binary_sub as_int].
    destruct (true_div_by_zero s) as (e & He & Hcls).
    exists e. split; [exact He | apply Hok; now left].
Qed.

(** X22: a list holding anything that is not a number never gets a
    variance: the first [sum] raises, with the [TypeError] of [+] when it
    reaches that element (or an [OverflowError] of the additions before
    it). *)
Theorem variance_rejects_non_numbers (items : list value) (x : value) :
  In x items -> isinstance x numbers = false ->
  fails_with (calculate_sample_variance libm_pow_2 items)
             ["TypeError"; "OverflowError"].
Proof.
  intros Hin Hx.
  destruct (sum_meets_non_number items (VInt 0) x eq_refl Hin Hx) as (e & He & Hcls).
  exists e. split; [| exact Hcls].
  assert (Hsum : sum items = inr e) by (rewrite <- He; reflexivity).
  unfold calculate_sample_variance. now rewrite Hsum.
Qed.

End SampleVariance.

Lemma variance_needs_two_numbers_witness :
  fails_with (calculate_sample_variance exact_square [VFloat f1_5])
             ["ZeroDivisionError"; "OverflowError"].
Proof.
  exact (proj2 (variance_needs_two_numbers exact_square) (VFloat f1_5) eq_refl).
Defined.

Lemma variance_rejects_non_numbers_witness :
  fails_with (calculate_sample_variance exact_square [VInt 1; VStr "2"; VInt 3])
             ["TypeError"; "OverflowError"].
Proof.
  exact (variance_rejects_non_numbers exact_square
           [VInt 1; VStr "2"; VInt 3] (VStr "2")
           (or_intror (or_introl eq_refl)) eq_refl).
Defined.

(** The two lines the script prints, for a libm whose [pow(x, 2.0)] is the
    correctly rounded square: 0.0 and 2.5. *)
Example printed_variances :
  calculate_sample_variance exact_square
    [VInt 1; VInt 1; VInt 1; VInt 1; VInt 1] = inl (VFloat f0_0) /\
  calculate_sample_variance exact_square
    [VInt 1; VInt 2; VInt 3; VInt 4; VInt 5] =
  inl (VFloat (S754_finite false 5629499534213120 (-51))).
Proof. split; vm_compute; reflexivity. Qed.

Local Close Scope string_scope.
